(** * giotto.utils.validation: a shallow embedding and its properties

    The module validates persistence-diagram batches, graph adjacency
    batches and parameter dictionaries.  Python's dynamic behaviour is kept:
    every operation that can raise returns a [result], float64 values are
    IEEE 754 binary64 numbers, and dictionaries keep their insertion order. *)

From Stdlib Require Import String Ascii ZArith List Bool Lia PeanoNat.
From Stdlib Require Import Permutation.
From Stdlib Require Import Floats.SpecFloat.
Import ListNotations.

Local Open Scope string_scope.
Local Open Scope nat_scope.
Local Open Scope list_scope.

(** ** Exceptions and the error monad *)

Module Py.

Inductive exn_kind : Type :=
| ValueError | TypeError | KeyError | IndexError | OverflowError.

(** An exception is its class and its message.  A message built with
    [str.format] or an f-string is kept as its template, placeholders
    unfilled. *)
Inductive exn : Type := Exn (k : exn_kind) (msg : string).

Inductive result (A : Type) : Type :=
| Ok (a : A)
| Raise (e : exn).
Arguments Ok {A} a.
Arguments Raise {A} e.

Definition bind {A B} (r : result A) (k : A -> result B) : result B :=
  match r with
  | Ok a => k a
  | Raise e => Raise e
  end.

(** [raises k r]: the computation ended with an exception of class [k]. *)
Definition raises {A} (k : exn_kind) (r : result A) : Prop :=
  exists msg, r = Raise (Exn k msg).

Definition returns {A} (r : result A) : Prop := exists a, r = Ok a.

End Py.
Import Py.

Declare Scope py_scope.
Delimit Scope py_scope with py.
Notation "x <- c ;; k" := (bind c (fun x => k))
  (at level 61, c at next level, right associativity) : py_scope.
Notation "c ;;; k" := (bind c (fun _ => k))
  (at level 61, right associativity) : py_scope.
Local Open Scope py_scope.

(** ** float64 *)

Module F64.

Definition prec : Z := 53.
Definition emax : Z := 1024.

(** A float64 is a [spec_float]: a signed zero, a signed infinity, NaN, or
    [(-1)^s * m * 2^e].  numpy only produces values that
    [valid_binary prec emax] accepts; no property below needs that side
    condition. *)
Definition float : Type := spec_float.

Definition inf : float := S754_infinity false.
Definition neg_inf : float := S754_infinity true.
Definition nan : float := S754_nan.
Definition zero : float := S754_zero false.

Definition eqb : float -> float -> bool := SFeqb.
Definition ltb : float -> float -> bool := SFltb.
Definition leb : float -> float -> bool := SFleb.
Definition abs : float -> float := SFabs.
Definition add : float -> float -> float := SFadd prec emax.
Definition sub : float -> float -> float := SFsub prec emax.
Definition mul : float -> float -> float := SFmul prec emax.

Definition is_finite (x : float) : bool :=
  match x with
  | S754_zero _ | S754_finite _ _ _ => true
  | _ => false
  end.

(** [int(x)]: truncation towards zero; Python raises on NaN and on the
    infinities. *)
Definition to_int (x : float) : result Z :=
  match x with
  | S754_nan => Raise (Exn ValueError "cannot convert float NaN to integer")
  | S754_infinity _ =>
      Raise (Exn OverflowError "cannot convert float infinity to integer")
  | S754_zero _ => Ok 0%Z
  | S754_finite s m e =>
      Ok (cond_Zopp s (if (0 <=? e)%Z then Zpos m * 2 ^ e
                       else Zpos m / 2 ^ (- e)))%Z
  end.

(** Exact comparison of a Python integer with a float ([None]: unordered). *)
Definition compare_int (z : Z) (x : float) : option comparison :=
  match x with
  | S754_nan => None
  | S754_infinity s => Some (if s then Gt else Lt)
  | S754_zero _ => Some (z ?= 0)%Z
  | S754_finite s m e =>
      if (0 <=? e)%Z then Some (z ?= cond_Zopp s (Zpos m) * 2 ^ e)%Z
      else Some (z * 2 ^ (- e) ?= cond_Zopp s (Zpos m))%Z
  end.

Definition eqb_int (x : float) (z : Z) : bool :=
  match compare_int z x with Some Eq => true | _ => false end.

End F64.

(** ** numpy arrays of dtype float64 *)

Module Np.

(** An array is its shape and its elements in row-major (C) order. *)
Record ndarray : Type := mk_ndarray { shape : list nat; data : list F64.float }.

Definition size (X : ndarray) : nat := fold_right Nat.mul 1 (shape X).

Definition wf (X : ndarray) : Prop := length (data X) = size X.

Definition ndim (X : ndarray) : nat := length (shape X).

(** [X.shape[a]] *)
Definition axis (a : nat) (X : ndarray) : nat := nth a (shape X) 0.

(** [X[i, j, k]] of a 3-dimensional array whose indices are in range. *)
Definition get3 (X : ndarray) (i j k : nat) : F64.float :=
  nth ((i * axis 1 X + j) * axis 2 X + k) (data X) F64.nan.

(** Index pairs [(i, j)] of the two leading axes, in row-major order. *)
Definition points (X : ndarray) : list (nat * nat) :=
  list_prod (seq 0 (axis 0 X)) (seq 0 (axis 1 X)).

(** [np.sum] of a boolean array: the number of [True] entries. *)
Definition count_true (l : list bool) : nat := length (filter id l).

(** [np.sum] of a float64 array, taken here in the plainest order: the
    elements are added one after the other in row-major order, each addition
    rounded to binary64.  numpy is free to add in another order (it adds
    long runs pairwise), which can change the rounded result; the orders it
    may use are described by [sum_order] below. *)
Definition sum (l : list F64.float) : F64.float := fold_left F64.add l F64.zero.

(** [np.diagonal(X, axis1=1, axis2=2)], flattened: the entries [X[i, j, j]]. *)
Definition diagonal (X : ndarray) : list F64.float :=
  map (fun p => get3 X (fst p) (snd p) (snd p)) (points X).

(** The index triples of a 3-dimensional array, in row-major order. *)
Definition indices3 (X : ndarray) : list (nat * nat * nat) :=
  list_prod (points X) (seq 0 (axis 2 X)).

(** [np.isclose(a, b)] with the default [rtol=1e-05], [atol=1e-08]: finite
    values are close when [|a - b| <= atol + rtol * |b|]; a non-finite value
    is close only to itself, and NaN to nothing. *)
Definition rtol : F64.float := S754_finite false 5902958103587057 (-69).
Definition atol : F64.float := S754_finite false 6044629098073146 (-79).

Definition isclose (a b : F64.float) : bool :=
  if F64.is_finite a && F64.is_finite b then
    F64.leb (F64.abs (F64.sub a b)) (F64.add atol (F64.mul rtol (F64.abs b)))
  else F64.eqb a b.

(** [np.allclose(X, np.transpose(X, (0, 2, 1)))] *)
Definition allclose_transpose (X : ndarray) : bool :=
  forallb (fun t => let '(i, j, k) := t in isclose (get3 X i j k) (get3 X i k j))
          (indices3 X).

End Np.
Import Np.

(** ** Python's [set] and [sorted] on float64 scalars *)

(** [list(set(l))]: one representative of each class of equal values.  NaN is
    equal to nothing, so every NaN is kept. *)
Fixpoint py_set (l : list F64.float) : list F64.float :=
  match l with
  | [] => []
  | x :: l' => x :: filter (fun y => negb (F64.eqb x y)) (py_set l')
  end.

(** [sorted(l)]: a stable sort that only uses [<].  On values without NaN
    the result is the ascending list whatever order the set was iterated in.
    With a NaN among them CPython's result depends on the iteration order of
    the set, which this function does not follow: what is proved about
    labels that may hold a NaN does not depend on the order of the list. *)
Fixpoint insert_sorted (x : F64.float) (l : list F64.float) : list F64.float :=
  match l with
  | [] => [x]
  | y :: l' => if F64.ltb x y then x :: y :: l' else y :: insert_sorted x l'
  end.

Definition py_sorted (l : list F64.float) : list F64.float :=
  fold_left (fun acc x => insert_sorted x acc) l [].

(** ** check_diagram *)

Module Diagram.

(** [X[0, :, 2]] *)
Definition first_sample_dims (X : ndarray) : result (list F64.float) :=
  if axis 0 X =? 0 then
    Raise (Exn IndexError "index 0 is out of bounds for axis 0 with size 0")
  else Ok (map (fun j => get3 X 0 j 2) (seq 0 (axis 1 X))).

Definition msg_ndim := "X should be a 3d np.array: X.shape = {}".
Definition msg_axis2 :=
  "X should be a 3d np.array with a 3rd dimension of 3 components: X.shape[2] = {}".
Definition msg_inf :=
  "np.inf is a valid homology dimension for a stacked diagram but it should be the only one: homology_dimensions = {}".
Definition msg_int :=
  "All homology dimensions should be integer valued: {} can't be casted to an int of the same value.".
Definition msg_diag :=
  "All points of all n_samples persistent diagrams should be above the diagonal, X[:,:,1] > =X[:,:,0]. {} points in all n_samples diagrams are under the diagonal.".

(** The body of [for dim in homology_dimensions], [n_dims] being
    [len(homology_dimensions)]. *)
Definition check_dim (n_dims : nat) (dim : F64.float) : result unit :=
  if F64.eqb dim F64.inf then
    if negb (n_dims =? 1) then Raise (Exn ValueError msg_inf) else Ok tt
  else
    i <- F64.to_int dim ;;
    if negb (F64.eqb_int dim i) then Raise (Exn ValueError msg_int)
    else if negb (F64.eqb dim (F64.abs dim)) then Raise (Exn ValueError msg_int)
    else Ok tt.

Fixpoint check_dims (n_dims : nat) (dims : list F64.float) : result unit :=
  match dims with
  | [] => Ok tt
  | dim :: rest => check_dim n_dims dim ;;; check_dims n_dims rest
  end.

(** [np.sum(X[:, :, 1] >= X[:, :, 0])] *)
Definition n_points_above_diag (X : ndarray) : nat :=
  count_true (map (fun p => F64.leb (get3 X (fst p) (snd p) 0)
                                    (get3 X (fst p) (snd p) 1)) (points X)).

Definition n_points_global (X : ndarray) : nat := axis 0 X * axis 1 X.

(** Lines 35-51: the homology dimensions of the first sample are collected
    and checked. *)
Definition check_homology_dimensions (X : ndarray) : result unit :=
  col <- first_sample_dims X ;;
  let homology_dimensions := py_sorted (py_set col) in
  check_dims (length homology_dimensions) homology_dimensions.

Definition check_diagram (X : ndarray) : result ndarray :=
  if negb (ndim X =? 3) then Raise (Exn ValueError msg_ndim)
  else if negb (axis 2 X =? 3) then Raise (Exn ValueError msg_axis2)
  else
    check_homology_dimensions X ;;;
    if negb (n_points_above_diag X =? n_points_global X)
    then Raise (Exn ValueError msg_diag)
    else Ok X.

End Diagram.

(** ** check_graph *)

Module Graph.

Definition msg_ndim :=
  "Graph structure dimension error: {}. Graph structure dimension must be equal to 3.".
Definition msg_square := "Matrix is not square".
Definition msg_diagonal := "At least one matrix diagonal element is not 0".
Definition msg_symmetric := "Matrix is not symmetric".
Definition msg_negative := "At least one matrix element is smaller than 0".

(** [np.sum(np.diagonal(X, axis1=1, axis2=2))] *)
Definition diagonal_sum (X : ndarray) : F64.float := Np.sum (diagonal X).

(** [np.sum(X < 0)] *)
Definition n_negative (X : ndarray) : nat :=
  count_true (map (fun x => F64.ltb x F64.zero) (data X)).

Definition check_graph (X : ndarray) : result ndarray :=
  if negb (ndim X =? 3) then Raise (Exn ValueError msg_ndim)
  else if negb (axis 1 X =? axis 2 X) then Raise (Exn TypeError msg_square)
  else if negb (F64.eqb (diagonal_sum X) F64.zero)
       then Raise (Exn ValueError msg_diagonal)
  else if negb (allclose_transpose X) then Raise (Exn ValueError msg_symmetric)
  else if 0 <? n_negative X then Raise (Exn ValueError msg_negative)
  else Ok X.

End Graph.

(** ** Python values *)

Module Value.

Set Warnings "-register-all".

Inductive pytype : Type :=
| TInt | TFloat | TBool | TStr | TList | TTuple | TNoneType | TType
| TComplex
| TNumber (* numbers.Number *).

(** The values of the built-in types the validators meet: numbers (complex
    ones included), strings, lists, tuples, type objects and [None].
    Instances of library classes ([Decimal], [Fraction], numpy scalars) are
    outside this universe; what is proved about a value that is a number is
    stated for [bool], [int] and [float] values by an explicit hypothesis. *)
Inductive pyval : Type :=
| VInt (z : Z)
| VFloat (x : F64.float)
| VComplex (re im : F64.float)
| VBool (b : bool)
| VStr (s : string)
| VList (l : list pyval)
| VTuple (l : list pyval)
| VType (t : pytype)
| VNone.

Definition pytype_eqb (a b : pytype) : bool :=
  match a, b with
  | TInt, TInt | TFloat, TFloat | TBool, TBool | TStr, TStr | TList, TList
  | TTuple, TTuple | TNoneType, TNoneType | TType, TType
  | TComplex, TComplex | TNumber, TNumber => true
  | _, _ => false
  end.

Definition type_of (v : pyval) : pytype :=
  match v with
  | VInt _ => TInt
  | VFloat _ => TFloat
  | VComplex _ _ => TComplex
  | VBool _ => TBool
  | VStr _ => TStr
  | VList _ => TList
  | VTuple _ => TTuple
  | VType _ => TType
  | VNone => TNoneType
  end.

(** [bool] is a subclass of [int]; [int], [float] and [complex] are
    registered with [numbers.Number]. *)
Definition issubclass (a b : pytype) : bool :=
  pytype_eqb a b ||
  match a, b with
  | TBool, TInt | TBool, TNumber | TInt, TNumber | TFloat, TNumber
  | TComplex, TNumber => true
  | _, _ => false
  end.

(** [isinstance(v, t)]: [t] is a type or a tuple of types, searched in order. *)
Fixpoint py_isinstance (v t : pyval) {struct t} : result bool :=
  match t with
  | VType ty => Ok (issubclass (type_of v) ty)
  | VTuple ts =>
      (fix any (ts : list pyval) : result bool :=
         match ts with
         | [] => Ok false
         | t' :: ts' =>
             b <- py_isinstance v t' ;; if b then Ok true else any ts'
         end) ts
  | _ => Raise (Exn TypeError
                  "isinstance() arg 2 must be a type, a tuple of types, or a union")
  end.

(** The real numeric values: [bool], [int] and [float]. *)
Inductive num : Type := NInt (z : Z) | NFloat (x : F64.float).

Definition as_num (v : pyval) : option num :=
  match v with
  | VInt z => Some (NInt z)
  | VBool b => Some (NInt (if b then 1 else 0))
  | VFloat x => Some (NFloat x)
  | _ => None
  end.

Definition num_is_nan (a : num) : bool :=
  match a with
  | NFloat S754_nan => true
  | _ => false
  end.

(** Mixed comparisons are exact; [None] means unordered (a NaN operand). *)
Definition num_compare (a b : num) : option comparison :=
  match a, b with
  | NInt x, NInt y => Some (x ?= y)%Z
  | NFloat x, NFloat y => SFcompare x y
  | NInt x, NFloat y => F64.compare_int x y
  | NFloat x, NInt y => option_map CompOpp (F64.compare_int y x)
  end.

Definition num_ltb (a b : num) : bool :=
  match num_compare a b with Some Lt => true | _ => false end.
Definition num_leb (a b : num) : bool :=
  match num_compare a b with Some (Lt | Eq) => true | _ => false end.
Definition num_eqb (a b : num) : bool :=
  match num_compare a b with Some Eq => true | _ => false end.

(** A complex number equals a real one when its imaginary part is zero and
    its real part equals it. *)
Definition complex_eqb_num (re im : F64.float) (x : num) : bool :=
  num_eqb (NFloat re) x && F64.eqb im F64.zero.

(** [a == b]; object identity is not modelled, so a NaN inside a container is
    not equal to itself. *)
Fixpoint py_eq (a b : pyval) {struct a} : bool :=
  let eq_list :=
    fix eq_list (l1 l2 : list pyval) : bool :=
      match l1, l2 with
      | [], [] => true
      | x :: l1', y :: l2' => py_eq x y && eq_list l1' l2'
      | _, _ => false
      end in
  match a, b with
  | VStr s, VStr t => String.eqb s t
  | VList l1, VList l2 => eq_list l1 l2
  | VTuple l1, VTuple l2 => eq_list l1 l2
  | VType s, VType t => pytype_eqb s t
  | VNone, VNone => true
  | VComplex re im, VComplex re' im' => F64.eqb re re' && F64.eqb im im'
  | VComplex re im, _ =>
      match as_num b with
      | Some y => complex_eqb_num re im y
      | None => false
      end
  | _, VComplex re im =>
      match as_num a with
      | Some x => complex_eqb_num re im x
      | None => false
      end
  | _, _ =>
      match as_num a, as_num b with
      | Some x, Some y => num_eqb x y
      | _, _ => false
      end
  end.

Definition msg_unorderable := "'<' not supported between instances".

(** [a < b]: real numbers by value, strings and sequences lexicographically;
    a complex operand is not orderable. *)
Fixpoint py_lt (a b : pyval) {struct a} : result bool :=
  let lt_list :=
    fix lt_list (l1 l2 : list pyval) : result bool :=
      match l1, l2 with
      | [], [] => Ok false
      | [], _ :: _ => Ok true
      | _ :: _, [] => Ok false
      | x :: l1', y :: l2' => if py_eq x y then lt_list l1' l2' else py_lt x y
      end in
  match a, b with
  | VStr s, VStr t => Ok (String.ltb s t)
  | VList l1, VList l2 => lt_list l1 l2
  | VTuple l1, VTuple l2 => lt_list l1 l2
  | _, _ =>
      match as_num a, as_num b with
      | Some x, Some y => Ok (num_ltb x y)
      | _, _ => Raise (Exn TypeError msg_unorderable)
      end
  end.

(** [a > b] is the reflected [b < a] for all these types. *)
Definition py_gt (a b : pyval) : result bool := py_lt b a.

Definition chars (s : string) : list pyval :=
  map (fun c => VStr (String c EmptyString)) (list_ascii_of_string s).

(** [v[i]] for a constant index [i >= 0]. *)
Definition py_getitem (v : pyval) (i : nat) : result pyval :=
  let item (l : list pyval) (what : string) :=
    match nth_error l i with
    | Some x => Ok x
    | None => Raise (Exn IndexError what)
    end in
  match v with
  | VList l => item l "list index out of range"
  | VTuple l => item l "tuple index out of range"
  | VStr s => item (chars s) "string index out of range"
  | _ => Raise (Exn TypeError "object is not subscriptable")
  end.

(** [len(v)] *)
Definition py_len (v : pyval) : result nat :=
  match v with
  | VList l | VTuple l => Ok (length l)
  | VStr s => Ok (String.length s)
  | _ => Raise (Exn TypeError "object has no len()")
  end.

(** The elements a [for] loop over [v] visits. *)
Definition py_iter (v : pyval) : result (list pyval) :=
  match v with
  | VList l | VTuple l => Ok l
  | VStr s => Ok (chars s)
  | _ => Raise (Exn TypeError "object is not iterable")
  end.

Fixpoint is_substring (s t : string) : bool :=
  String.prefix s t ||
  match t with
  | EmptyString => false
  | String _ t' => is_substring s t'
  end.

(** [x in c].  Python finds an element that is equal to [x] or is the very
    object [x]; identity is not modelled, which matters only for an [x] that
    is not equal to itself (a NaN, or a container of one). *)
Definition py_contains (x c : pyval) : result bool :=
  match c with
  | VList l | VTuple l => Ok (existsb (py_eq x) l)
  | VStr t =>
      match x with
      | VStr s => Ok (is_substring s t)
      | _ => Raise (Exn TypeError "'in <string>' requires string as left operand")
      end
  | _ => Raise (Exn TypeError "argument is not iterable")
  end.

(** A [dict] with string keys, in insertion order.  The keys of a Python
    dict are distinct; lookup takes the first binding and no property below
    relies on distinctness. *)
Definition dict (V : Type) : Type := list (string * V).

Definition keys {V} (d : dict V) : list string := map fst d.

Fixpoint dict_get {V} (d : dict V) (key : string) : option V :=
  match d with
  | [] => None
  | (k, v) :: d' => if String.eqb key k then Some v else dict_get d' key
  end.

(** [key in d.keys()] *)
Definition dict_mem {V} (d : dict V) (key : string) : bool :=
  match dict_get d key with Some _ => true | None => false end.

(** [d[key]] *)
Definition dict_getitem {V} (d : dict V) (key : string) : result V :=
  match dict_get d key with
  | Some v => Ok v
  | None => Raise (Exn KeyError key)
  end.

End Value.
Import Value.

(** ** validate_params *)

Module Params.

Definition msg_type := "Parameter {} is of type {} while it should be of type {}".
Definition msg_elem_type :=
  "Parameter {} is a list of {} but contains an element of type {}".
Definition msg_elem_range :=
  "Parameter {} is a list containing {}which should be in the range ({},{})".
Definition msg_range := "Parameter {} is {}, while it should be in the range ({},{})".
Definition msg_enum :=
  "Parameter {} is {}, while it should be one of the following {}".

(** How one iteration of [for key in references.keys()] ends: it falls
    through or hits [continue] ([Next]), or it hits [break]. *)
Inductive loop_ctl : Type := Next | Break.

(** [if x < lo or x > hi: raise ValueError], where [rng] evaluates to the pair
    [(lo, hi)]; [or] evaluates its second operand only when the first is
    false. *)
Definition check_range (x : pyval) (rng : result pyval) (msg : string)
  : result unit :=
  r <- rng ;; lo <- py_getitem r 0 ;; below <- py_lt x lo ;;
  if below then Raise (Exn ValueError msg)
  else
    r <- rng ;; hi <- py_getitem r 1 ;; above <- py_gt x hi ;;
    if above then Raise (Exn ValueError msg) else Ok tt.

(** The body of [for parameter in parameters[key]], [ref] being
    [references[key]]. *)
Definition check_element (ref parameter : pyval) : result unit :=
  c <- py_getitem ref 1 ;; ety <- py_getitem c 0 ;;
  ok <- py_isinstance parameter ety ;;
  if negb ok then Raise (Exn TypeError msg_elem_type)
  else
    c <- py_getitem ref 1 ;;
    is_tuple <- py_isinstance c (VType TTuple) ;;
    if is_tuple then check_range parameter (py_getitem c 1) msg_elem_range
    else Ok tt.

Fixpoint check_elements (ref : pyval) (l : list pyval) : result unit :=
  match l with
  | [] => Ok tt
  | parameter :: l' => check_element ref parameter ;;; check_elements ref l'
  end.

(** The body of [for key in references.keys()]. *)
Definition check_key (parameters references : dict pyval) (key : string)
  : result loop_ctl :=
  value <- dict_getitem parameters key ;;
  ref <- dict_getitem references key ;;
  ty <- py_getitem ref 0 ;;
  ok <- py_isinstance value ty ;;
  if negb ok then Raise (Exn TypeError msg_type)
  else
    n <- py_len ref ;;
    if n =? 1 then Ok Next
    else if py_eq ty (VType TList) then
      elems <- py_iter value ;;
      check_elements ref elems ;;;
      Ok Break
    else
      c <- py_getitem ref 1 ;;
      is_tuple <- py_isinstance c (VType TTuple) ;;
      (if is_tuple then check_range value (Ok c) msg_range else Ok tt) ;;;
      c <- py_getitem ref 1 ;;
      is_list <- py_isinstance c (VType TList) ;;
      (if is_list then
         found <- py_contains value c ;;
         if negb found then Raise (Exn ValueError msg_enum) else Ok tt
       else Ok tt) ;;;
      Ok Next.

Fixpoint check_keys (parameters references : dict pyval) (ks : list string)
  : result unit :=
  match ks with
  | [] => Ok tt
  | key :: ks' =>
      ctl <- check_key parameters references key ;;
      match ctl with
      | Next => check_keys parameters references ks'
      | Break => Ok tt
      end
  end.

Definition validate_params (parameters references : dict pyval) : result unit :=
  check_keys parameters references (keys references).

End Params.

(** ** validate_metric_params *)

Module Metric.

Definition py_int (z : Z) : pyval := VInt z.
Definition py_float (x : F64.float) : pyval := VFloat x.

(** The float literals of the registry: [0.], [1.], [1e-16]. *)
Definition f_0 : F64.float := S754_zero false.
Definition f_1 : F64.float := S754_finite false 4503599627370496 (-52).
Definition f_1e_16 : F64.float := S754_finite false 8112963841460668 (-106).

(** A declaration [(param, param_type, param_values)]. *)
Definition declaration : Type := string * pytype * (pyval * pyval).

Definition available_metrics : dict (list declaration) :=
  [ ("bottleneck", [ ("delta", TNumber, (VFloat f_0, VFloat f_1)) ]);
    ("wasserstein", [ ("p", TInt, (VInt 1, VFloat F64.inf));
                      ("delta", TNumber, (VFloat f_1e_16, VFloat f_1)) ]);
    ("betti", [ ("p", TNumber, (VInt 1, VFloat F64.inf));
                ("n_values", TInt, (VInt 1, VFloat F64.inf)) ]);
    ("landscape", [ ("p", TNumber, (VInt 1, VFloat F64.inf));
                    ("n_values", TInt, (VInt 1, VFloat F64.inf));
                    ("n_layers", TInt, (VInt 1, VFloat F64.inf)) ]);
    ("heat", [ ("order", TNumber, (VInt 1, VFloat F64.inf));
               ("n_values", TInt, (VInt 1, VFloat F64.inf));
               ("sigma", TNumber, (VFloat f_0, VFloat F64.inf)) ]) ].

(** [list(set([param for param_list in available_metrics.values()
                for (param, _, _) in param_list]))]; only membership in it is
    ever used. *)
Definition available_metric_params : list string :=
  nodup string_dec
    (flat_map (fun entry => map (fun d => fst (fst d)) (snd entry))
              available_metrics).

Definition msg_metric := "No metric called {}. Available metrics are {}.".
Definition msg_type := "{} in params_metric is of type {} but must be an {}.".
Definition msg_range :=
  "{} in param_metric should be between {} and {} but has been set to {}.".
Definition msg_param :=
  "{} in param_metric is not an available parameter. Available metric_params. are {}".

(** The body of the loop over the declarations of the metric. *)
Definition check_declaration (metric_params : dict pyval) (d : declaration)
  : result unit :=
  let '(param, param_type, param_values) := d in
  if dict_mem metric_params param then
    input_param <- dict_getitem metric_params param ;;
    ok <- py_isinstance input_param (VType param_type) ;;
    if negb ok then Raise (Exn TypeError msg_type)
    else
      below <- py_lt input_param (fst param_values) ;;
      if below then Raise (Exn ValueError msg_range)
      else
        above <- py_gt input_param (snd param_values) ;;
        if above then Raise (Exn ValueError msg_range) else Ok tt
  else Ok tt.

Fixpoint check_declarations (metric_params : dict pyval) (ds : list declaration)
  : result unit :=
  match ds with
  | [] => Ok tt
  | d :: ds' =>
      check_declaration metric_params d ;;; check_declarations metric_params ds'
  end.

(** The loop over [metric_params.keys()]. *)
Fixpoint check_names (ks : list string) : result unit :=
  match ks with
  | [] => Ok tt
  | param :: ks' =>
      if negb (existsb (String.eqb param) available_metric_params)
      then Raise (Exn ValueError msg_param)
      else check_names ks'
  end.

Definition validate_metric_params (metric : string) (metric_params : dict pyval)
  : result unit :=
  match dict_get available_metrics metric with
  | None => Raise (Exn ValueError msg_metric)
  | Some declarations =>
      check_declarations metric_params declarations ;;;
      check_names (keys metric_params)
  end.

End Metric.


(** ** What the specification says about diagram batches *)

Module DiagramSpec.
Import Diagram.

(** A 3-dimensional array whose third axis has size 3. *)
Definition is_diagram_batch (X : ndarray) : Prop :=
  wf X /\ ndim X = 3 /\ axis 2 X = 3.

(** death >= birth for every point of every sample. *)
Definition above_diagonal (X : ndarray) : Prop :=
  forall i j, i < axis 0 X -> j < axis 1 X ->
    F64.leb (get3 X i j 0) (get3 X i j 1) = true.

(** The point [j] of sample [i] has death < birth. *)
Definition below_diagonal_at (X : ndarray) (i j : nat) : Prop :=
  F64.ltb (get3 X i j 1) (get3 X i j 0) = true.

(** [d] is the homology dimension of some point of the first sample. *)
Definition first_sample_label (X : ndarray) (d : F64.float) : Prop :=
  exists j, j < axis 1 X /\ d = get3 X 0 j 2.

(** [d] has the value of a non-negative integer. *)
Definition is_nonneg_integer (d : F64.float) : Prop :=
  exists z : Z, (0 <= z)%Z /\ F64.eqb_int d z = true.

(** Every label is a non-negative integer, or infinity is the one label. *)
Definition valid_labels (X : ndarray) : Prop :=
  (forall d, first_sample_label X d -> is_nonneg_integer d) \/
  ((exists d, first_sample_label X d) /\
   forall d, first_sample_label X d -> d = F64.inf).

(** Infinity is a label and so is some other value. *)
Definition inf_with_other_label (X : ndarray) : Prop :=
  first_sample_label X F64.inf /\
  exists d, first_sample_label X d /\ F64.eqb d F64.inf = false.

Definition fl_1 : F64.float := S754_finite false 4503599627370496 (-52).
Definition fl_2 : F64.float := S754_finite false 4503599627370496 (-51).

(** [np.zeros((0, 0, 3))] *)
Definition empty_batch : ndarray := mk_ndarray [0; 0; 3] [].

(** One sample with the points (0, 1, 0) and (1, 2, 1). *)
Definition small_batch : ndarray :=
  mk_ndarray [1; 2; 3] [F64.zero; fl_1; F64.zero; fl_1; fl_2; fl_1].

(** One sample with the points (0, 1, 0) and (2, 1, 1): the second one is
    below the diagonal. *)
Definition crossed_batch : ndarray :=
  mk_ndarray [1; 2; 3] [F64.zero; fl_1; F64.zero; fl_2; fl_1; fl_1].

(** One sample with the points (0, 1, -inf) and (0, 1, inf). *)
Definition neg_inf_batch : ndarray :=
  mk_ndarray [1; 2; 3]
             [F64.zero; fl_1; F64.neg_inf; F64.zero; fl_1; F64.inf].

(** One sample with the points (0, 1, 0) and (0, 1, inf). *)
Definition zero_inf_batch : ndarray :=
  mk_ndarray [1; 2; 3] [F64.zero; fl_1; F64.zero; F64.zero; fl_1; F64.inf].

End DiagramSpec.

(** ** What the specification says about graph batches *)

Module GraphSpec.

(** [d] is a diagonal entry [X[i, j, j]] of some sample matrix. *)
Definition diagonal_entry (X : ndarray) (d : F64.float) : Prop :=
  exists i j, i < axis 0 X /\ j < axis 1 X /\ d = get3 X i j j.

(** No entry of X is negative. *)
Definition nonnegative (X : ndarray) : Prop :=
  forall x, In x (data X) -> F64.ltb x F64.zero = false.

Definition g_1 : F64.float := S754_finite false 4503599627370496 (-52).
Definition g_minus_1 : F64.float := S754_finite true 4503599627370496 (-52).
(** The float64 literal [-1e-09]. *)
Definition g_minus_1e_9 : F64.float := S754_finite true 4835703278458517 (-82).

(** One 2x2 matrix [[1, 0], [0, -1]]. *)
Definition cancelling_batch : ndarray :=
  mk_ndarray [1; 2; 2] [g_1; F64.zero; F64.zero; g_minus_1].

(** One 2x2 matrix [[0, 1], [1, 0]]. *)
Definition edge_batch : ndarray :=
  mk_ndarray [1; 2; 2] [F64.zero; g_1; g_1; F64.zero].

(** One 2x2 matrix [[0, -1e-09], [0, 0]]: within tolerance of its transpose. *)
Definition tiny_negative_batch : ndarray :=
  mk_ndarray [1; 2; 2] [F64.zero; g_minus_1e_9; F64.zero; F64.zero].

(** One 2x2 matrix [[0, -1], [1, 0]]. *)
Definition skew_batch : ndarray :=
  mk_ndarray [1; 2; 2] [F64.zero; g_minus_1; g_1; F64.zero].

End GraphSpec.

(** ** What the specification says about the parameter validators *)

Module ParamsSpec.
Import Params.

(** The loop gets past the keys [pre]: each of these iterations ends without
    an exception and without [break]. *)
Definition gets_past (parameters references : dict pyval) (pre : list string)
  : Prop :=
  Forall (fun k => check_key parameters references k = Ok Next) pre.

(** The range [(0, 5)] and the declarations used in the examples. *)
Definition range_0_5 : pyval := VTuple [VInt 0; VInt 5].
Definition decl_int : pyval := VList [VType TInt].
Definition decl_bare_list : pyval := VList [VType TList].
Definition decl_int_list : pyval :=
  VList [VType TList; VTuple [VType TInt; range_0_5]].

End ParamsSpec.

Module MetricSpec.
Import Metric.

(** [name] is declared by some metric of the registry. *)
Definition declared_anywhere (name : string) : Prop :=
  exists metric ds ty rng,
    In (metric, ds) available_metrics /\ In (name, ty, rng) ds.

Definition is_nan (v : pyval) : bool :=
  match v with
  | VFloat S754_nan => true
  | _ => false
  end.

(** [lo <= v <= hi]: the value lies in the inclusive range. *)
Definition within_range (v lo hi : pyval) : bool :=
  match as_num v, as_num lo, as_num hi with
  | Some x, Some a, Some b => num_leb a x && num_leb x b
  | _, _, _ => false
  end.

(** The float64 literals [0.5] and [2.0]. *)
Definition f_half : F64.float := S754_finite false 4503599627370496 (-53).
Definition f_two : F64.float := S754_finite false 4503599627370496 (-51).

(** The declarations of the registry all have a numeric type and a range
    whose bounds are numbers other than NaN.  [ordered_number v]: [v] is a
    [bool], [int] or [float] other than NaN. *)
Definition numeric_type (ty : pytype) : bool :=
  match ty with
  | TInt | TFloat | TBool | TNumber => true
  | _ => false
  end.

Definition ordered_number (v : pyval) : bool :=
  match as_num v with
  | Some a => negb (num_is_nan a)
  | None => false
  end.

Definition numeric_declaration (d : declaration) : bool :=
  let '(_, ty, (lo, hi)) := d in
  numeric_type ty && ordered_number lo && ordered_number hi.

End MetricSpec.

(** ** Further notions used to state what the validators do *)

Module ArraySpec.

(** The outcome of a check without the value it returns. *)
Definition verdict {A} (r : result A) : result unit :=
  match r with
  | Ok _ => Ok tt
  | Raise e => Raise e
  end.

(** Every in-range entry of a 3-dimensional batch. *)
Definition in_range3 (X : ndarray) (i j k : nat) : Prop :=
  i < axis 0 X /\ j < axis 1 X /\ k < axis 2 X.

Definition a_1 : F64.float := S754_finite false 4503599627370496 (-52).

(** Two samples of one point each, (0, 1, 0) and (0, 1, NaN). *)
Definition nan_label_batch : ndarray :=
  mk_ndarray [2; 1; 3] [F64.zero; a_1; F64.zero; F64.zero; a_1; F64.nan].

(** Two samples of one point each, both (0, 1, 0). *)
Definition plain_batch : ndarray :=
  mk_ndarray [2; 1; 3] [F64.zero; a_1; F64.zero; F64.zero; a_1; F64.zero].

(** One sample with the point (NaN, 1, 0). *)
Definition nan_birth_batch : ndarray :=
  mk_ndarray [1; 1; 3] [F64.nan; a_1; F64.zero].

(** [np.zeros((0, 2, 3))] and [np.zeros((0, 2, 2))]. *)
Definition no_sample_diagrams : ndarray := mk_ndarray [0; 2; 3] [].
Definition no_sample_graphs : ndarray := mk_ndarray [0; 2; 2] [].

(** One 1x2 matrix [[0, 0]]. *)
Definition rectangular_batch : ndarray :=
  mk_ndarray [1; 1; 2] [F64.zero; F64.zero].

End ArraySpec.

(** ** Non-negative float64 values *)

Module FloatSpec.

(** The values numpy stores: a finite one has a canonical mantissa and an
    exponent in range. *)
Definition valid_float (x : F64.float) : Prop :=
  valid_binary F64.prec F64.emax x = true.

(** [x == 0]: plus or minus zero. *)
Definition is_zero (x : F64.float) : bool :=
  match x with
  | S754_zero _ => true
  | _ => false
  end.

(** A zero, a positive number whose exponent is at least the smallest one
    of the format, or plus infinity. *)
Definition nonneg_class (x : F64.float) : Prop :=
  match x with
  | S754_zero _ => True
  | S754_infinity s => s = false
  | S754_nan => False
  | S754_finite s _ e => s = false /\ (emin F64.prec F64.emax <= e)%Z
  end.

(** A zero, a positive number or plus infinity. *)
Definition not_negative (x : F64.float) : Prop :=
  match x with
  | S754_zero _ => True
  | S754_infinity s => s = false
  | S754_nan => False
  | S754_finite s _ _ => s = false
  end.

End FloatSpec.

(** ** Notions used to state what the declarations enforce *)

Module DeclarationSpec.
Import MetricSpec.

(** [a <= b] on numbers. *)
Definition number_le (a b : pyval) : bool :=
  match as_num a, as_num b with
  | Some x, Some y => num_leb x y
  | _, _ => false
  end.

(** The types whose instances are all real numbers: [int], [float] and
    [bool]. *)
Definition real_type (ty : pytype) : bool :=
  match ty with
  | TInt | TFloat | TBool => true
  | _ => false
  end.

(** An element of a list parameter passes when it has the declared element
    type and lies in the declared range, or is NaN. *)
Definition element_passes (ety : pytype) (lo hi e : pyval) : bool :=
  issubclass (type_of e) ety && (is_nan e || within_range e lo hi).

(** The declaration [[list, (int, (0, 5))]] written with a list instead of
    the tuple: [[list, [int, (0, 5)]]]. *)
Definition decl_int_list_as_list : pyval :=
  VList [VType TList; VList [VType TInt; VTuple [VInt 0; VInt 5]]].

End DeclarationSpec.

(** ** The sum of the diagonal, in whatever order numpy adds *)

Module GraphSum.
Import Graph GraphSpec.

(** [sum_order l s]: [s] is a result of adding the elements of [l], each
    once and every addition rounded to binary64, in some order and with some
    grouping (a sum may start from the identity 0).  Every summation order
    of [np.sum], the pairwise one included, gives such a result. *)
Inductive sum_order : list F64.float -> F64.float -> Prop :=
| sum_nil : sum_order [] F64.zero
| sum_single (x : F64.float) : sum_order [x] x
| sum_join (l l1 l2 : list F64.float) (s1 s2 : F64.float) :
    Permutation l (l1 ++ l2) -> sum_order l1 s1 -> sum_order l2 s2 ->
    sum_order l (F64.add s1 s2).

(** [check_graph], where [s] is what
    [np.sum(np.diagonal(X, axis1=1, axis2=2))] evaluates to. *)
Definition check_graph_with (s : F64.float) (X : ndarray) : result ndarray :=
  if negb (ndim X =? 3) then Raise (Exn ValueError msg_ndim)
  else if negb (axis 1 X =? axis 2 X) then Raise (Exn TypeError msg_square)
  else if negb (F64.eqb s F64.zero) then Raise (Exn ValueError msg_diagonal)
  else if negb (allclose_transpose X) then Raise (Exn ValueError msg_symmetric)
  else if 0 <? n_negative X then Raise (Exn ValueError msg_negative)
  else Ok X.

(** One 2x2 matrix [[1, 0], [0, 0]]. *)
Definition unit_diagonal_batch : ndarray :=
  mk_ndarray [1; 2; 2] [g_1; F64.zero; F64.zero; F64.zero].

End GraphSum.

(** * Properties *)

(** ** float64 comparisons *)

Section FloatFacts.

Lemma SFcompare_antisym (x y : F64.float) (c : comparison) :
  SFcompare x y = Some c -> SFcompare y x = Some (CompOpp c).
Proof.
  destruct x as [sx|sx| |sx mx ex], y as [sy|sy| |sy my ey]; simpl;
    try discriminate;
    try (destruct sx; intros [= <-]; reflexivity);
    try (destruct sy; intros [= <-]; reflexivity);
    try (destruct sx, sy; intros [= <-]; reflexivity).
  destruct sx, sy; intros [= <-]; try reflexivity;
    rewrite (Z.compare_antisym ex ey); destruct (ex ?= ey)%Z; simpl;
    try reflexivity.
  - rewrite CompOpp_involutive, (Pos.compare_cont_antisym my mx Eq).
    reflexivity.
  - rewrite (Pos.compare_cont_antisym mx my Eq). reflexivity.
Qed.

Lemma ltb_not_leb (x y : F64.float) : F64.ltb x y = true -> F64.leb y x = false.
Proof.
  unfold F64.ltb, F64.leb, SFltb, SFleb.
  destruct (SFcompare x y) as [c|] eqn:E; try discriminate.
  rewrite (SFcompare_antisym _ _ _ E). destruct c; simpl; congruence.
Qed.

Lemma eqb_inf_r (d : F64.float) : F64.eqb d F64.inf = true <-> d = F64.inf.
Proof.
  split; [|intros ->; reflexivity].
  destruct d as [s|s| |s m e]; try (destruct s); simpl; try discriminate;
    reflexivity.
Qed.

Lemma eqb_inf_l (d : F64.float) : F64.eqb F64.inf d = true <-> d = F64.inf.
Proof.
  split; [|intros ->; reflexivity].
  destruct d as [s|s| |s m e]; try (destruct s); simpl; try discriminate;
    reflexivity.
Qed.

Lemma SFcompare_refl_finite (s : bool) (m : positive) (e : Z) :
  SFcompare (S754_finite s m e) (S754_finite s m e) = Some Eq.
Proof.
  simpl. rewrite Z.compare_refl, Pos.compare_cont_refl. destruct s; reflexivity.
Qed.

End FloatFacts.

(** ** Lists: counting, [set] and [sorted] *)

Section ListFacts.

Lemma count_true_le (l : list bool) : count_true l <= length l.
Proof.
  unfold count_true. induction l as [|b l IH]; simpl; [lia|].
  destruct b; simpl; lia.
Qed.

Lemma count_true_full {A} (f : A -> bool) (l : list A) :
  count_true (map f l) = length l <-> forall x, In x l -> f x = true.
Proof.
  induction l as [|a l IH]; simpl.
  - split; [intros _ x []|reflexivity].
  - pose proof (count_true_le (map f l)) as Hle. rewrite length_map in Hle.
    unfold count_true in *. simpl. destruct (f a) eqn:Ea; simpl.
    + split.
      * intros H x [<-|Hx]; [assumption|]. apply IH; [lia|assumption].
      * intros H. f_equal. apply IH. intros x Hx. apply H. now right.
    + split; [lia|]. intros H. specialize (H a (or_introl eq_refl)). congruence.
Qed.

Lemma count_true_pos {A} (f : A -> bool) (l : list A) :
  0 < count_true (map f l) <-> exists x, In x l /\ f x = true.
Proof.
  unfold count_true. induction l as [|a l IH]; simpl.
  - split; [lia|intros (x & [] & _)].
  - destruct (f a) eqn:Ea; simpl.
    + split; [intros _; exists a; auto|lia].
    + rewrite IH. split.
      * intros (x & Hx & Hf). exists x. auto.
      * intros (x & [<-|Hx] & Hf); [congruence|]. exists x. auto.
Qed.

Lemma In_insert_sorted (x y : F64.float) (l : list F64.float) :
  In y (insert_sorted x l) <-> y = x \/ In y l.
Proof.
  induction l as [|a l IH]; simpl.
  - intuition congruence.
  - destruct (F64.ltb x a); simpl; [intuition congruence|].
    rewrite IH. intuition congruence.
Qed.

Lemma length_insert_sorted (x : F64.float) (l : list F64.float) :
  length (insert_sorted x l) = S (length l).
Proof.
  induction l as [|a l IH]; simpl; [reflexivity|].
  destruct (F64.ltb x a); simpl; congruence.
Qed.

Lemma In_fold_insert (l acc : list F64.float) (y : F64.float) :
  In y (fold_left (fun acc x => insert_sorted x acc) l acc) <-> In y l \/ In y acc.
Proof.
  revert acc. induction l as [|a l IH]; intros acc; simpl; [tauto|].
  rewrite IH, In_insert_sorted. intuition congruence.
Qed.

Lemma In_py_sorted (l : list F64.float) (y : F64.float) :
  In y (py_sorted l) <-> In y l.
Proof. unfold py_sorted. rewrite In_fold_insert. simpl. tauto. Qed.

Lemma length_fold_insert (l acc : list F64.float) :
  length (fold_left (fun acc x => insert_sorted x acc) l acc)
  = length l + length acc.
Proof.
  revert acc. induction l as [|a l IH]; intros acc; simpl; [reflexivity|].
  rewrite IH, length_insert_sorted. lia.
Qed.

Lemma length_py_sorted (l : list F64.float) : length (py_sorted l) = length l.
Proof. unfold py_sorted. rewrite length_fold_insert. simpl. lia. Qed.

Lemma In_py_set (l : list F64.float) (y : F64.float) : In y (py_set l) -> In y l.
Proof.
  revert y. induction l as [|a l IH]; intros y; simpl; [tauto|].
  intros [->|H]; [now left|]. right. apply IH.
  apply filter_In in H. tauto.
Qed.

Lemma py_set_keeps_inf (l : list F64.float) :
  In F64.inf l -> In F64.inf (py_set l).
Proof.
  induction l as [|a l IH]; simpl; [tauto|].
  intros [->|H]; [now left|].
  destruct (F64.eqb a F64.inf) eqn:E.
  - left. now apply eqb_inf_r.
  - right. apply filter_In. split; [auto|]. now rewrite E.
Qed.

Lemma py_set_keeps_other (l : list F64.float) (b : F64.float) :
  In b l -> b <> F64.inf -> exists b', In b' (py_set l) /\ b' <> F64.inf.
Proof.
  induction l as [|a l IH]; simpl; [tauto|]. intros Hb Hne.
  destruct (F64.eqb a F64.inf) eqn:E.
  - apply eqb_inf_r in E. subst a.
    destruct Hb as [<-|Hb]; [congruence|].
    destruct (IH Hb Hne) as (b' & Hin & Hb'). exists b'. split; [|assumption].
    right. apply filter_In. split; [assumption|].
    destruct (F64.eqb F64.inf b') eqn:E'; [|reflexivity].
    apply eqb_inf_l in E'. congruence.
  - exists a. split; [now left|]. intros ->. discriminate.
Qed.

Lemma py_set_all_inf (l : list F64.float) :
  l <> [] -> (forall d, In d l -> d = F64.inf) -> py_set l = [F64.inf].
Proof.
  induction l as [|a l IH]; [congruence|]. intros _ H. simpl.
  rewrite (H a (or_introl eq_refl)). f_equal.
  assert (Hall : forall d, In d (py_set l) -> d = F64.inf).
  { intros d Hd. apply H. right. now apply In_py_set. }
  clear IH H. induction (py_set l) as [|c s IHs]; [reflexivity|]. simpl.
  rewrite (Hall c (or_introl eq_refl)). simpl. apply IHs.
  intros d Hd. apply Hall. now right.
Qed.

Lemma two_members_length {A} (l : list A) (a b : A) :
  In a l -> In b l -> a <> b -> 2 <= length l.
Proof.
  destruct l as [|x [|y l]]; simpl; try tauto; [|lia].
  intros [<-|[]] [<-|[]]. congruence.
Qed.

Lemma In_points (X : ndarray) (i j : nat) :
  In (i, j) (points X) <-> i < axis 0 X /\ j < axis 1 X.
Proof. unfold points. rewrite in_prod_iff, !in_seq. lia. Qed.

Lemma length_points (X : ndarray) : length (points X) = axis 0 X * axis 1 X.
Proof. unfold points. now rewrite length_prod, !length_seq. Qed.

End ListFacts.

(** ** check_diagram *)

Section DiagramFacts.
Import Diagram DiagramSpec.

Lemma In_first_sample (X : ndarray) (d : F64.float) :
  In d (map (fun j => get3 X 0 j 2) (seq 0 (axis 1 X))) <-> first_sample_label X d.
Proof.
  unfold first_sample_label. rewrite in_map_iff. split.
  - intros (j & <- & Hj). apply in_seq in Hj. exists j. split; [lia|reflexivity].
  - intros (j & Hj & ->). exists j. split; [reflexivity|]. apply in_seq. lia.
Qed.

Lemma nonneg_integer_checks (d : F64.float) (z : Z) :
  (0 <= z)%Z -> F64.eqb_int d z = true ->
  F64.eqb d F64.inf = false /\ F64.to_int d = Ok z /\
  F64.eqb d (F64.abs d) = true.
Proof.
  intros Hz E. unfold F64.eqb_int, F64.compare_int in E.
  destruct d as [s|s| |s m e]; try discriminate.
  - destruct (z ?= 0)%Z eqn:C; try discriminate. apply Z.compare_eq in C.
    subst z. repeat split; reflexivity.
  - destruct s; discriminate.
  - pose proof (Pos2Z.is_pos m) as Hm.
    assert (Hs : s = false /\ F64.to_int (S754_finite s m e) = Ok z).
    { unfold F64.to_int. destruct (0 <=? e)%Z eqn:He.
      - destruct (z ?= cond_Zopp s (Z.pos m) * 2 ^ e)%Z eqn:C; try discriminate.
        apply Z.compare_eq in C. apply Z.leb_le in He.
        assert (0 < 2 ^ e)%Z by (apply Z.pow_pos_nonneg; lia).
        destruct s; unfold cond_Zopp in *; [nia|]. split; congruence.
      - destruct (z * 2 ^ (- e) ?= cond_Zopp s (Z.pos m))%Z eqn:C;
          try discriminate.
        apply Z.compare_eq in C. apply Z.leb_gt in He.
        assert (0 < 2 ^ (- e))%Z by (apply Z.pow_pos_nonneg; lia).
        destruct s; unfold cond_Zopp in *; [nia|]. split; [reflexivity|].
        rewrite <- C, Z.div_mul by lia. reflexivity. }
    destruct Hs as [-> Hint]. split; [reflexivity|split; [assumption|]].
    unfold F64.eqb, SFeqb, F64.abs, SFabs. now rewrite SFcompare_refl_finite.
Qed.

Lemma check_dim_nonneg_integer (n : nat) (d : F64.float) :
  is_nonneg_integer d -> check_dim n d = Ok tt.
Proof.
  intros (z & Hz & E).
  destruct (nonneg_integer_checks d z Hz E) as (Hinf & Hint & Habs).
  unfold check_dim. rewrite Hinf, Hint. unfold bind. now rewrite E, Habs.
Qed.

Lemma check_dims_nonneg_integer (n : nat) (dims : list F64.float) :
  (forall d, In d dims -> is_nonneg_integer d) -> check_dims n dims = Ok tt.
Proof.
  induction dims as [|d dims IH]; intros H; simpl; [reflexivity|].
  rewrite check_dim_nonneg_integer by (apply H; now left).
  apply IH. intros d' Hd'. apply H. now right.
Qed.

(** A dimension other than minus infinity passes or is refused with a
    ValueError. *)
Lemma check_dim_kinds (n : nat) (d : F64.float) :
  d <> F64.neg_inf -> check_dim n d = Ok tt \/ raises ValueError (check_dim n d).
Proof.
  intros Hd. unfold check_dim, raises.
  destruct (F64.eqb d F64.inf) eqn:E.
  - destruct (negb (n =? 1)); eauto.
  - destruct d as [s|s| |s m e]; unfold F64.to_int; unfold bind.
    + repeat (destruct (negb _); eauto).
    + destruct s; [exfalso; now apply Hd|discriminate].
    + eauto.
    + repeat (destruct (negb _); eauto).
Qed.

Lemma check_dims_inf_not_alone (n : nat) (dims : list F64.float) :
  n <> 1 -> In F64.inf dims -> (forall d, In d dims -> d <> F64.neg_inf) ->
  raises ValueError (check_dims n dims).
Proof.
  intros Hn. induction dims as [|d dims IH]; simpl; [tauto|]. intros Hin Hneg.
  destruct (check_dim_kinds n d (Hneg d (or_introl eq_refl))) as [E|(msg & E)].
  - rewrite E. simpl. destruct Hin as [->|Hin].
    + unfold check_dim in E. simpl in E.
      apply Nat.eqb_neq in Hn. rewrite Hn in E. discriminate.
    + apply IH; [assumption|]. intros d' Hd'. apply Hneg. now right.
  - rewrite E. simpl. now exists msg.
Qed.

Lemma check_diagram_shape_ok (X : ndarray) :
  ndim X = 3 -> axis 2 X = 3 ->
  check_diagram X =
  (check_homology_dimensions X ;;;
   if negb (n_points_above_diag X =? n_points_global X)
   then Raise (Exn ValueError msg_diag) else Ok X).
Proof. intros H3 H2. unfold check_diagram. now rewrite H3, H2. Qed.

Lemma above_diagonal_count (X : ndarray) :
  n_points_above_diag X = n_points_global X <-> above_diagonal X.
Proof.
  unfold n_points_above_diag, n_points_global, above_diagonal.
  rewrite <- length_points, count_true_full. split.
  - intros H i j Hi Hj. apply (H (i, j)). now apply In_points.
  - intros H [i j] Hp. apply In_points in Hp. now apply H.
Qed.

Lemma homology_dimensions_nonempty_batch (X : ndarray) :
  0 < axis 0 X ->
  check_homology_dimensions X =
  let dims := py_sorted (py_set (map (fun j => get3 X 0 j 2) (seq 0 (axis 1 X)))) in
  check_dims (length dims) dims.
Proof.
  intros Hn. unfold check_homology_dimensions, first_sample_dims.
  destruct (axis 0 X =? 0) eqn:E; [apply Nat.eqb_eq in E; lia|reflexivity].
Qed.

Lemma homology_dimensions_valid (X : ndarray) :
  0 < axis 0 X -> valid_labels X -> check_homology_dimensions X = Ok tt.
Proof.
  intros Hn Hv. rewrite homology_dimensions_nonempty_batch by assumption.
  cbv zeta. destruct Hv as [Hint|[[d Hd] Hinf]].
  - apply check_dims_nonneg_integer. intros d Hd. apply Hint.
    apply In_first_sample. apply In_py_set. now apply In_py_sorted.
  - rewrite py_set_all_inf; [reflexivity| |].
    + apply In_first_sample in Hd. intros E. rewrite E in Hd. destruct Hd.
    + intros d' Hd'. apply Hinf. now apply In_first_sample.
Qed.

(** C5 as stated fails on a batch with no sample: [np.zeros((0, 0, 3))] meets
    every hypothesis of the claim, yet [X[0, :, 2]] raises IndexError. *)
Lemma check_diagram_empty_batch_raises :
  is_diagram_batch empty_batch /\ above_diagonal empty_batch /\
  valid_labels empty_batch /\
  check_diagram empty_batch
  = Raise (Exn IndexError "index 0 is out of bounds for axis 0 with size 0").
Proof.
  split; [|split; [|split]].
  - repeat split.
  - intros i j Hi. cbv in Hi. lia.
  - left. intros d (j & Hj & _). cbv in Hj. lia.
  - reflexivity.
Qed.

(** C5 (amended): for every 3-dimensional array X with at least one sample
    whose third axis has size 3, in which death >= birth holds for every
    point of every sample and in which every homology dimension of the first
    sample is a non-negative integer (or infinity is the only one),
    [check_diagram X] raises no error and returns X unchanged. *)
Theorem check_diagram_valid (X : ndarray) :
  is_diagram_batch X -> 0 < axis 0 X -> above_diagonal X -> valid_labels X ->
  check_diagram X = Ok X.
Proof.
  intros (_ & H3 & H2) Hn Habove Hlabels.
  rewrite check_diagram_shape_ok by assumption.
  rewrite homology_dimensions_valid by assumption. simpl.
  apply above_diagonal_count in Habove. rewrite Habove, Nat.eqb_refl.
  reflexivity.
Qed.

Lemma check_diagram_valid_witness :
  check_diagram small_batch = Ok small_batch.
Proof.
  apply check_diagram_valid.
  - repeat split.
  - cbv. lia.
  - intros i j Hi Hj. cbv in Hi, Hj.
    destruct i as [|i]; [|lia]. destruct j as [|[|j]]; [reflexivity..|lia].
  - left. intros d (j & Hj & ->). cbv in Hj.
    destruct j as [|[|j]]; [exists 0%Z|exists 1%Z|lia]; split;
      solve [lia | reflexivity].
Defined.

(** C6: for a batch that passes the shape and homology-dimension checks, the
    outcome is decided by comparing the number of points with death >= birth
    to [n_samples * n_points]; a single point with death < birth makes
    [check_diagram] fail with ValueError. *)
Theorem check_diagram_below_diagonal (X : ndarray) :
  ndim X = 3 -> axis 2 X = 3 -> check_homology_dimensions X = Ok tt ->
  (n_points_above_diag X = axis 0 X * axis 1 X -> check_diagram X = Ok X) /\
  (n_points_above_diag X <> axis 0 X * axis 1 X ->
   check_diagram X = Raise (Exn ValueError msg_diag)) /\
  ((exists i j, i < axis 0 X /\ j < axis 1 X /\ below_diagonal_at X i j) ->
   check_diagram X = Raise (Exn ValueError msg_diag)).
Proof.
  intros H3 H2 Hdims. rewrite check_diagram_shape_ok by assumption.
  rewrite Hdims. simpl. unfold n_points_global.
  assert (Hne : n_points_above_diag X <> axis 0 X * axis 1 X ->
                (if negb (n_points_above_diag X =? axis 0 X * axis 1 X)
                 then Raise (Exn ValueError msg_diag) else Ok X)
                = Raise (Exn ValueError msg_diag)).
  { intros Hc. apply Nat.eqb_neq in Hc. now rewrite Hc. }
  split; [|split].
  - intros ->. now rewrite Nat.eqb_refl.
  - exact Hne.
  - intros (i & j & Hi & Hj & Hlt). apply Hne. intros Hc.
    apply above_diagonal_count in Hc. specialize (Hc i j Hi Hj).
    apply ltb_not_leb in Hlt. congruence.
Qed.

Lemma check_diagram_below_diagonal_witness :
  check_diagram crossed_batch = Raise (Exn ValueError msg_diag).
Proof.
  apply (check_diagram_below_diagonal crossed_batch); try reflexivity.
  exists 0, 1. repeat split; cbv; lia.
Defined.

(** C7, at the label set {-inf, inf}: the sorted dimensions start with minus
    infinity, whose conversion [int(dim)] raises OverflowError before any
    ValueError is reached. *)
Lemma check_diagram_neg_inf_label :
  is_diagram_batch neg_inf_batch /\ inf_with_other_label neg_inf_batch /\
  check_diagram neg_inf_batch
  = Raise (Exn OverflowError "cannot convert float infinity to integer").
Proof.
  split; [repeat split|split; [|reflexivity]].
  split.
  - exists 1. split; [cbv; lia|reflexivity].
  - exists F64.neg_inf. split; [|reflexivity].
    exists 0. split; [cbv; lia|reflexivity].
Qed.

(** Away from minus infinity the check does what C7 says: when infinity is a
    label of the first sample next to another value, [check_diagram] fails
    with ValueError. *)
Lemma check_diagram_inf_not_alone (X : ndarray) :
  ndim X = 3 -> axis 2 X = 3 -> 0 < axis 0 X -> inf_with_other_label X ->
  (forall d, first_sample_label X d -> d <> F64.neg_inf) ->
  raises ValueError (check_diagram X).
Proof.
  intros H3 H2 Hn (Hinf & b & Hb & Hbne) Hneg.
  rewrite check_diagram_shape_ok by assumption.
  rewrite homology_dimensions_nonempty_batch by assumption. cbv zeta.
  set (col := map (fun j => get3 X 0 j 2) (seq 0 (axis 1 X))).
  apply In_first_sample in Hinf, Hb. fold col in Hinf, Hb.
  assert (Hb' : b <> F64.inf).
  { intros ->. discriminate. }
  destruct (py_set_keeps_other col b Hb Hb') as (b' & Hin' & Hne').
  assert (Hdims : raises ValueError
            (check_dims (length (py_sorted (py_set col))) (py_sorted (py_set col)))).
  { apply check_dims_inf_not_alone.
    - pose proof (two_members_length (py_sorted (py_set col)) F64.inf b') as Hl.
      rewrite !In_py_sorted in Hl.
      specialize (Hl (py_set_keeps_inf col Hinf) Hin' (not_eq_sym Hne')). lia.
    - apply In_py_sorted. now apply py_set_keeps_inf.
    - intros d Hd. apply Hneg. apply In_first_sample. fold col.
      apply In_py_set. now apply In_py_sorted. }
  destruct Hdims as (msg & ->). now exists msg.
Qed.

Lemma check_diagram_zero_inf_labels :
  check_diagram zero_inf_batch = Raise (Exn ValueError msg_inf).
Proof. reflexivity. Qed.

End DiagramFacts.

(** ** check_graph *)

Section GraphFacts.
Import Graph GraphSpec.

Lemma check_graph_shape_ok (X : ndarray) :
  ndim X = 3 -> axis 1 X = axis 2 X ->
  check_graph X =
  if negb (F64.eqb (diagonal_sum X) F64.zero)
  then Raise (Exn ValueError msg_diagonal)
  else if negb (allclose_transpose X) then Raise (Exn ValueError msg_symmetric)
  else if 0 <? n_negative X then Raise (Exn ValueError msg_negative)
  else Ok X.
Proof.
  intros H3 Hsq. unfold check_graph. rewrite H3. simpl.
  apply Nat.eqb_eq in Hsq. now rewrite Hsq.
Qed.

Lemma get3_In (X : ndarray) (i j k : nat) :
  wf X -> ndim X = 3 -> i < axis 0 X -> j < axis 1 X -> k < axis 2 X ->
  In (get3 X i j k) (data X).
Proof.
  unfold wf, ndim, axis, get3, size. destruct X as [sh dat]. simpl.
  destruct sh as [|a [|b [|c [|]]]]; simpl; try discriminate.
  intros Hwf _ Hi Hj Hk. apply nth_In. rewrite Hwf. unfold axis. simpl.
  assert (H1 : S (i * b + j) <= a * b) by nia.
  pose proof (Nat.mul_le_mono_r _ _ c H1) as H2. lia.
Qed.

Lemma In_diagonal (X : ndarray) (d : F64.float) :
  In d (diagonal X) <-> diagonal_entry X d.
Proof.
  unfold diagonal, diagonal_entry. rewrite in_map_iff. split.
  - intros ([i j] & <- & Hp). apply In_points in Hp. exists i, j. tauto.
  - intros (i & j & Hi & Hj & ->). exists (i, j).
    split; [reflexivity|]. now apply In_points.
Qed.

Lemma n_negative_pos (X : ndarray) :
  0 < n_negative X <-> exists x, In x (data X) /\ F64.ltb x F64.zero = true.
Proof. unfold n_negative. apply count_true_pos. Qed.

Lemma n_negative_zero (X : ndarray) : n_negative X = 0 <-> nonnegative X.
Proof.
  unfold nonnegative. split.
  - intros H0 x Hx. destruct (F64.ltb x F64.zero) eqn:E; [|reflexivity].
    assert (0 < n_negative X) by (apply n_negative_pos; eauto). lia.
  - intros H. destruct (n_negative X) eqn:E; [reflexivity|].
    assert (Hpos : 0 < n_negative X) by lia.
    apply n_negative_pos in Hpos. destruct Hpos as (x & Hx & Hlt).
    rewrite (H x Hx) in Hlt. discriminate.
Qed.

(** C9: a 3-dimensional batch of square matrices whose diagonal sums to
    zero, that is within tolerance of its transpose and has no negative
    entry, is returned unchanged; a batch with a negative off-diagonal entry
    fails with ValueError, raised by the last check when the batch is
    otherwise valid. *)
Theorem check_graph_valid :
  (forall X, ndim X = 3 -> axis 1 X = axis 2 X ->
     F64.eqb (diagonal_sum X) F64.zero = true ->
     allclose_transpose X = true -> nonnegative X ->
     check_graph X = Ok X) /\
  (forall X i j k, wf X -> ndim X = 3 -> axis 1 X = axis 2 X ->
     i < axis 0 X -> j < axis 1 X -> k < axis 2 X -> j <> k ->
     F64.ltb (get3 X i j k) F64.zero = true ->
     raises ValueError (check_graph X) /\
     (F64.eqb (diagonal_sum X) F64.zero = true ->
      allclose_transpose X = true ->
      check_graph X = Raise (Exn ValueError msg_negative))).
Proof.
  split.
  - intros X H3 Hsq Hsum Hsym Hnn. rewrite check_graph_shape_ok by assumption.
    rewrite Hsum, Hsym. simpl. apply n_negative_zero in Hnn. now rewrite Hnn.
  - intros X i j k Hwf H3 Hsq Hi Hj Hk _ Hneg.
    assert (Hpos : (0 <? n_negative X) = true).
    { apply Nat.ltb_lt, n_negative_pos. exists (get3 X i j k).
      split; [now apply get3_In|assumption]. }
    rewrite check_graph_shape_ok by assumption. rewrite Hpos. split.
    + unfold raises. destruct (negb (F64.eqb (diagonal_sum X) F64.zero)); eauto.
      destruct (negb (allclose_transpose X)); eauto.
    + intros -> ->. reflexivity.
Qed.

Lemma check_graph_valid_witness :
  check_graph edge_batch = Ok edge_batch /\
  check_graph tiny_negative_batch = Raise (Exn ValueError msg_negative).
Proof.
  split.
  - apply (proj1 check_graph_valid); try reflexivity.
    intros x Hx. cbv in Hx. intuition (subst; reflexivity).
  - apply (proj2 check_graph_valid tiny_negative_batch 0 0 1);
      solve [reflexivity | cbv; lia | discriminate].
Defined.

Lemma check_graph_skew_batch :
  check_graph skew_batch = Raise (Exn ValueError msg_symmetric).
Proof. reflexivity. Qed.

End GraphFacts.

(** ** Numbers and dictionaries *)

Section ValueFacts.

Lemma num_compare_total (a b : num) :
  num_is_nan a = false -> num_is_nan b = false ->
  exists c, num_compare a b = Some c.
Proof.
  destruct a as [x|x], b as [y|y]; simpl; intros Ha Hb; eauto.
  - destruct y as [s|s| |s m e]; try discriminate; simpl; eauto.
    destruct (0 <=? e)%Z; eauto.
  - destruct x as [s|s| |s m e]; try discriminate; simpl; eauto.
    destruct (0 <=? e)%Z; simpl; eauto.
  - destruct x as [s|s| |s m e], y as [s'|s'| |s' m' e'];
      try discriminate; simpl; eauto.
Qed.

Lemma num_compare_antisym (a b : num) (c : comparison) :
  num_compare a b = Some c -> num_compare b a = Some (CompOpp c).
Proof.
  destruct a as [x|x], b as [y|y]; simpl.
  - intros [= <-]. now rewrite Z.compare_antisym.
  - intros ->. reflexivity.
  - destruct (F64.compare_int y x) as [c'|]; simpl; [|discriminate].
    intros [= <-]. now rewrite CompOpp_involutive.
  - apply SFcompare_antisym.
Qed.

Lemma num_ltb_negb_leb (a b : num) :
  num_is_nan a = false -> num_is_nan b = false ->
  num_ltb a b = negb (num_leb b a).
Proof.
  intros Ha Hb. destruct (num_compare_total a b Ha Hb) as [c Hc].
  unfold num_ltb, num_leb. rewrite Hc, (num_compare_antisym _ _ _ Hc).
  destruct c; reflexivity.
Qed.

Lemma py_lt_num (v w : pyval) (x y : num) :
  as_num v = Some x -> as_num w = Some y -> py_lt v w = Ok (num_ltb x y).
Proof.
  destruct v, w; simpl; try discriminate; intros [= <-] [= <-]; reflexivity.
Qed.

Lemma dict_get_None {V} (d : dict V) (key : string) :
  dict_get d key = None <-> ~ In key (keys d).
Proof.
  induction d as [|[k v] d IH]; simpl; [tauto|].
  destruct (String.eqb_spec key k) as [->|Hne].
  - split; [discriminate|]. intros H. exfalso. apply H. now left.
  - rewrite IH. split; [intros H [E|Hin]; [congruence|tauto]|tauto].
Qed.

Lemma dict_get_In {V} (d : dict V) (key : string) (v : V) :
  dict_get d key = Some v -> In (key, v) d.
Proof.
  induction d as [|[k w] d IH]; simpl; [discriminate|].
  destruct (String.eqb_spec key k) as [->|Hne].
  - intros [= ->]. now left.
  - intros H. right. now apply IH.
Qed.

End ValueFacts.

(** ** validate_params *)

Section ParamsFacts.
Import Params ParamsSpec.

Lemma check_keys_gets_past (parameters references : dict pyval)
      (pre rest : list string) :
  gets_past parameters references pre ->
  check_keys parameters references (pre ++ rest)
  = check_keys parameters references rest.
Proof.
  induction 1 as [|k pre Hk _ IH]; simpl; [reflexivity|]. now rewrite Hk.
Qed.

(** An iteration on a key declared as [list] with a further constraint ends
    in [break] whenever it does not raise. *)
Lemma check_key_list_breaks (parameters references : dict pyval)
      (key : string) (ref : pyval) (n : nat) :
  dict_get references key = Some ref ->
  py_getitem ref 0 = Ok (VType TList) -> py_len ref = Ok n -> n <> 1 ->
  returns (check_key parameters references key) ->
  check_key parameters references key = Ok Break.
Proof.
  intros Href Hty Hlen Hn [c Hc]. revert Hc. unfold check_key, dict_getitem.
  rewrite Href. destruct (dict_get parameters key) as [value|]; simpl;
    [|discriminate].
  rewrite Hty. simpl. destruct (issubclass (type_of value) TList); simpl;
    [|discriminate].
  rewrite Hlen. simpl. apply Nat.eqb_neq in Hn. rewrite Hn.
  destruct (py_iter value) as [elems|]; simpl; [|discriminate].
  destruct (check_elements ref elems); simpl; [reflexivity|discriminate].
Qed.

(** C1 as stated fails for a declaration of length 1: the key "a" is declared
    as [list] and passes, the loop goes on, and the key "b" raises. *)
Lemma validate_params_bare_list_continues :
  let parameters := [("a", VList []); ("b", VStr "x")] in
  let references := [("a", decl_bare_list); ("b", decl_int)] in
  py_getitem decl_bare_list 0 = Ok (VType TList) /\
  check_key parameters references "a" = Ok Next /\
  validate_params parameters references = Raise (Exn TypeError msg_type).
Proof. repeat split. Qed.

(** C1 (amended): once a key whose declaration is [list] followed by a
    constraint (a declaration of length other than 1) has been processed
    without raising, the loop ends: whatever keys follow, none is checked and
    [validate_params] returns normally. *)
Theorem validate_params_breaks_after_list_key
        (parameters references : dict pyval) (pre post : list string)
        (key : string) (ref : pyval) (n : nat) :
  keys references = pre ++ key :: post ->
  gets_past parameters references pre ->
  dict_get references key = Some ref ->
  py_getitem ref 0 = Ok (VType TList) -> py_len ref = Ok n -> n <> 1 ->
  returns (check_key parameters references key) ->
  validate_params parameters references = Ok tt /\
  forall others, check_keys parameters references (pre ++ key :: others) = Ok tt.
Proof.
  intros Hkeys Hpre Href Hty Hlen Hn Hret.
  pose proof (check_key_list_breaks _ _ _ _ _ Href Hty Hlen Hn Hret) as Hbreak.
  assert (Hall : forall others,
             check_keys parameters references (pre ++ key :: others) = Ok tt).
  { intros others. rewrite check_keys_gets_past by assumption. simpl.
    now rewrite Hbreak. }
  split; [|exact Hall]. unfold validate_params. rewrite Hkeys. apply Hall.
Qed.

Lemma validate_params_breaks_after_list_key_witness :
  let parameters := [("a", VList [VInt 1]); ("b", VStr "x")] in
  let references := [("a", decl_int_list); ("b", decl_int)] in
  check_key parameters references "b" = Raise (Exn TypeError msg_type) /\
  validate_params parameters references = Ok tt.
Proof.
  split; [reflexivity|].
  apply (validate_params_breaks_after_list_key
           [("a", VList [VInt 1]); ("b", VStr "x")]
           [("a", decl_int_list); ("b", decl_int)]
           [] ["b"] "a" decl_int_list 2);
    solve [reflexivity | constructor | discriminate | now exists Break].
Defined.

(** C10 as stated fails when the loop never reaches the missing key: "b" is
    absent from [parameters], but the [break] after "a" ends the loop first
    and nothing is raised. *)
Lemma validate_params_missing_key_unreached :
  let parameters := [("a", VList [VInt 1])] in
  let references := [("a", decl_int_list); ("b", decl_int)] in
  In "b" (keys references) /\ dict_get parameters "b" = None /\
  validate_params parameters references = Ok tt.
Proof. repeat split. simpl. auto. Qed.

(** C10 (amended): if the loop reaches a key of [references] that is absent
    from [parameters] (every earlier key passes without [break]), then
    [validate_params] fails with KeyError from [parameters[key]], whatever
    the declaration of that key is. *)
Theorem validate_params_missing_key
        (parameters references : dict pyval) (pre post : list string)
        (key : string) :
  keys references = pre ++ key :: post ->
  gets_past parameters references pre ->
  dict_get parameters key = None ->
  validate_params parameters references = Raise (Exn KeyError key).
Proof.
  intros Hkeys Hpre Hmiss. unfold validate_params. rewrite Hkeys.
  rewrite check_keys_gets_past by assumption. simpl.
  unfold check_key, dict_getitem. now rewrite Hmiss.
Qed.

Lemma validate_params_missing_key_witness :
  validate_params [("a", VInt 1)] [("a", decl_int); ("b", decl_int_list)]
  = Raise (Exn KeyError "b").
Proof.
  apply (validate_params_missing_key _ _ ["a"] [] "b");
    [reflexivity| |reflexivity].
  constructor; [reflexivity|constructor].
Defined.

End ParamsFacts.

(** ** validate_metric_params *)

Section MetricFacts.
Import Metric MetricSpec.

Lemma available_metric_params_spec (name : string) :
  existsb (String.eqb name) available_metric_params = true
  <-> declared_anywhere name.
Proof.
  rewrite existsb_exists. unfold available_metric_params, declared_anywhere.
  split.
  - intros (x & Hin & E). apply String.eqb_eq in E. subst x.
    apply nodup_In, in_flat_map in Hin. destruct Hin as ([metric ds] & Hm & Hd).
    apply in_map_iff in Hd. destruct Hd as ([[name' ty] rng] & E & Hd).
    simpl in E. subst name'. now exists metric, ds, ty, rng.
  - intros (metric & ds & ty & rng & Hm & Hd). exists name.
    split; [|apply String.eqb_refl].
    apply nodup_In, in_flat_map. exists (metric, ds). split; [assumption|].
    apply in_map_iff. now exists (name, ty, rng).
Qed.

Lemma check_names_ok (ks : list string) :
  (forall k, In k ks -> declared_anywhere k) -> check_names ks = Ok tt.
Proof.
  induction ks as [|k ks IH]; intros H; cbn [check_names]; [reflexivity|].
  rewrite (proj2 (available_metric_params_spec k)) by (apply H; now left).
  cbn [negb]. apply IH. intros k' Hk'. apply H. now right.
Qed.

Lemma check_names_unknown (ks : list string) :
  (exists k, In k ks /\ ~ declared_anywhere k) ->
  check_names ks = Raise (Exn ValueError msg_param).
Proof.
  induction ks as [|k ks IH]; intros (k' & Hin & Hk'); cbn [check_names];
    [destruct Hin|].
  destruct (existsb (String.eqb k) available_metric_params) eqn:E; cbn [negb];
    [|reflexivity].
  apply available_metric_params_spec in E. apply IH. exists k'.
  destruct Hin as [->|Hin]; [contradiction|auto].
Qed.

Lemma check_names_cases (ks : list string) :
  (check_names ks = Ok tt /\ forall k, In k ks -> declared_anywhere k) \/
  (check_names ks = Raise (Exn ValueError msg_param) /\
   exists k, In k ks /\ ~ declared_anywhere k).
Proof.
  induction ks as [|k ks IH]; cbn [check_names].
  - left. split; [reflexivity|intros k []].
  - destruct (existsb (String.eqb k) available_metric_params) eqn:E; cbn [negb].
    + apply available_metric_params_spec in E.
      destruct IH as [[-> Hall]|[-> (k' & Hin & Hk')]].
      * left. split; [reflexivity|]. intros k' [<-|Hin]; auto.
      * right. split; [reflexivity|]. exists k'. split; [now right|assumption].
    + right. split; [reflexivity|]. exists k. split; [now left|].
      intros Hd. apply available_metric_params_spec in Hd. congruence.
Qed.

(** C2: for a metric of the registry whose declared and supplied parameters
    pass their checks, [validate_metric_params] fails with ValueError exactly
    when some supplied key is declared by no metric at all; the name space is
    the union over all metrics ("n_layers" is accepted for "bottleneck"), and
    the unknown "bogus_param" is refused for "heat". *)
Theorem validate_metric_params_unknown_name :
  (forall metric ds metric_params,
     dict_get available_metrics metric = Some ds ->
     check_declarations metric_params ds = Ok tt ->
     (raises ValueError (validate_metric_params metric metric_params)
      <-> exists key, In key (keys metric_params) /\ ~ declared_anywhere key) /\
     ((forall key, In key (keys metric_params) -> declared_anywhere key) ->
      validate_metric_params metric metric_params = Ok tt)) /\
  validate_metric_params "bottleneck" [("n_layers", VInt 3)] = Ok tt /\
  validate_metric_params "heat" [("bogus_param", VInt 1)]
  = Raise (Exn ValueError msg_param).
Proof.
  split; [|split; reflexivity].
  intros metric ds mp Hm Hds. unfold validate_metric_params.
  rewrite Hm, Hds. simpl. split; [split|].
  - intros (msg & Hr).
    destruct (check_names_cases (keys mp)) as [[E _]|[_ Hex]];
      [congruence|exact Hex].
  - intros Hex. rewrite (check_names_unknown _ Hex). now exists msg_param.
  - apply check_names_ok.
Qed.

Lemma validate_metric_params_unknown_name_witness :
  raises ValueError (validate_metric_params "heat" [("bogus_param", VInt 1)]).
Proof.
  apply (proj1 validate_metric_params_unknown_name "heat" _
               [("bogus_param", VInt 1)] eq_refl eq_refl).
  exists "bogus_param". split; [now left|].
  intros Hd. apply available_metric_params_spec in Hd. discriminate.
Defined.

(** C4: the registry has exactly the keys bottleneck, wasserstein, betti,
    landscape and heat; for any other metric name [validate_metric_params]
    fails with the unknown-metric ValueError whatever [metric_params] holds,
    so before any parameter is looked at. *)
Theorem validate_metric_params_unknown_metric :
  keys available_metrics
  = ["bottleneck"; "wasserstein"; "betti"; "landscape"; "heat"] /\
  (forall metric metric_params,
     ~ In metric (keys available_metrics) ->
     validate_metric_params metric metric_params
     = Raise (Exn ValueError msg_metric)) /\
  validate_metric_params "unknown_metric" [] = Raise (Exn ValueError msg_metric).
Proof.
  split; [reflexivity|split; [|reflexivity]].
  intros metric mp Hnot. unfold validate_metric_params.
  now rewrite (proj2 (dict_get_None available_metrics metric) Hnot).
Qed.

Lemma validate_metric_params_unknown_metric_witness :
  validate_metric_params "unknown_metric" [("p", VStr "two")]
  = Raise (Exn ValueError msg_metric).
Proof.
  apply (proj1 (proj2 validate_metric_params_unknown_metric)).
  simpl. intros H.
  repeat (destruct H as [H|H]; [discriminate|]). exact H.
Defined.

Lemma registry_numeric (metric : string) (ds : list declaration)
      (d : declaration) :
  dict_get available_metrics metric = Some ds -> In d ds ->
  numeric_declaration d = true.
Proof.
  intros Hm Hd. apply dict_get_In in Hm.
  assert (Hall : forallb (fun e => forallb numeric_declaration (snd e))
                         available_metrics = true) by reflexivity.
  rewrite forallb_forall in Hall. specialize (Hall _ Hm). simpl in Hall.
  rewrite forallb_forall in Hall. now apply Hall.
Qed.

Lemma ordered_number_spec (v : pyval) :
  ordered_number v = true ->
  exists a, as_num v = Some a /\ num_is_nan a = false.
Proof.
  unfold ordered_number. destruct (as_num v) as [a|]; [|discriminate].
  intros H. exists a. split; [reflexivity|]. now destruct (num_is_nan a).
Qed.

Lemma is_nan_num (v : pyval) (x : num) :
  as_num v = Some x -> is_nan v = false -> num_is_nan x = false.
Proof. destruct v; simpl; try discriminate; intros [= <-]; auto. Qed.

(** The body of the loop on a supplied value that is a [bool], [int] or
    [float] other than NaN. *)
Lemma check_declaration_supplied (metric_params : dict pyval) (param : string)
      (ty : pytype) (lo hi v : pyval) :
  numeric_declaration (param, ty, (lo, hi)) = true ->
  dict_get metric_params param = Some v ->
  issubclass (type_of v) ty = true -> ordered_number v = true ->
  check_declaration metric_params (param, ty, (lo, hi))
  = if within_range v lo hi then Ok tt else Raise (Exn ValueError msg_range).
Proof.
  intros Hd Hv Hty Hord. simpl in Hd.
  apply andb_true_iff in Hd. destruct Hd as [Hd Hhi].
  apply andb_true_iff in Hd. destruct Hd as [Hnum Hlo].
  destruct (ordered_number_spec v Hord) as (x & Hx & Hnx).
  destruct (ordered_number_spec lo Hlo) as (a & Ha & Hna).
  destruct (ordered_number_spec hi Hhi) as (b & Hb & Hnb).
  unfold check_declaration, dict_mem, dict_getitem, py_gt, within_range.
  rewrite Hv. cbn [bind py_isinstance fst snd]. rewrite Hty. cbn [negb].
  rewrite (py_lt_num v lo x a Hx Ha), (py_lt_num hi v b x Hb Hx).
  rewrite Hx, Ha, Hb. cbn [bind].
  rewrite (num_ltb_negb_leb x a Hnx Hna), (num_ltb_negb_leb b x Hnb Hnx).
  destruct (num_leb a x), (num_leb x b); reflexivity.
Qed.

Lemma check_declarations_raise (metric_params : dict pyval)
      (pre post : list declaration) (d : declaration) (e : exn) :
  check_declarations metric_params pre = Ok tt ->
  check_declaration metric_params d = Raise e ->
  check_declarations metric_params (pre ++ d :: post) = Raise e.
Proof.
  induction pre as [|d' pre IH]; cbn [check_declarations app].
  - intros _ ->. reflexivity.
  - destruct (check_declaration metric_params d') as [[]|e']; cbn [bind];
      [auto|discriminate].
Qed.

(** C3 as stated fails on NaN: "delta" is declared for "bottleneck" as a
    number in [0, 1]; NaN is a number and lies outside every range, yet both
    comparisons are false and nothing is raised.  It also fails on a number
    that is not real: the complex [2+0j] has the declared type and is not in
    [0, 1], but the comparison raises TypeError, not ValueError. *)
Lemma validate_metric_params_nan_accepted :
  dict_get available_metrics "bottleneck"
  = Some [("delta", TNumber, (VFloat f_0, VFloat f_1))] /\
  issubclass (type_of (VFloat F64.nan)) TNumber = true /\
  within_range (VFloat F64.nan) (VFloat f_0) (VFloat f_1) = false /\
  validate_metric_params "bottleneck" [("delta", VFloat F64.nan)] = Ok tt /\
  issubclass (type_of (VComplex f_two F64.zero)) TNumber = true /\
  within_range (VComplex f_two F64.zero) (VFloat f_0) (VFloat f_1) = false /\
  validate_metric_params "bottleneck" [("delta", VComplex f_two F64.zero)]
  = Raise (Exn TypeError msg_unorderable).
Proof. repeat split. Qed.

(** C3 (amended): for each parameter declared under the given metric and
    supplied with a [bool], [int] or [float] value of the declared type
    other than NaN, the check of that declaration fails with ValueError if and only if the value is
    outside the inclusive range [min, max], and the failure is the outcome of
    [validate_metric_params] when the earlier declarations pass; declared
    parameters that are not supplied are skipped.  [{"p": 2, "delta": 0.5}]
    passes for "wasserstein" and [{"p": 0}] fails with ValueError. *)
Theorem validate_metric_params_range :
  (forall metric ds param ty lo hi metric_params v,
     dict_get available_metrics metric = Some ds ->
     In (param, ty, (lo, hi)) ds ->
     dict_get metric_params param = Some v ->
     issubclass (type_of v) ty = true -> ordered_number v = true ->
     (raises ValueError (check_declaration metric_params (param, ty, (lo, hi)))
      <-> within_range v lo hi = false) /\
     (within_range v lo hi = true ->
      check_declaration metric_params (param, ty, (lo, hi)) = Ok tt)) /\
  (forall metric pre d post metric_params e,
     dict_get available_metrics metric = Some (pre ++ d :: post) ->
     check_declarations metric_params pre = Ok tt ->
     check_declaration metric_params d = Raise e ->
     validate_metric_params metric metric_params = Raise e) /\
  (forall metric_params param ty rng,
     dict_get metric_params param = None ->
     check_declaration metric_params (param, ty, rng) = Ok tt) /\
  validate_metric_params "wasserstein" [("p", VInt 2); ("delta", VFloat f_half)]
  = Ok tt /\
  validate_metric_params "wasserstein" [("p", VInt 0)]
  = Raise (Exn ValueError msg_range).
Proof.
  split; [|split; [|split; [|split; reflexivity]]].
  - intros metric ds param ty lo hi mp v Hm Hd Hv Hty Hnan.
    rewrite (check_declaration_supplied mp param ty lo hi v
               (registry_numeric _ _ _ Hm Hd) Hv Hty Hnan).
    destruct (within_range v lo hi); split;
      try solve [reflexivity | discriminate].
    + split; [intros (msg & H); discriminate|discriminate].
    + split; [reflexivity|]. intros _. now exists msg_range.
  - intros metric pre d post mp e Hm Hpre Hd. unfold validate_metric_params.
    rewrite Hm, (check_declarations_raise mp pre post d e Hpre Hd). reflexivity.
  - intros mp param ty rng Hmiss. unfold check_declaration, dict_mem.
    now rewrite Hmiss.
Qed.

Lemma validate_metric_params_range_witness :
  raises ValueError (validate_metric_params "wasserstein" [("p", VInt 0)]).
Proof.
  exists msg_range.
  apply (proj1 (proj2 validate_metric_params_range) "wasserstein" []
               ("p", TInt, (VInt 1, VFloat F64.inf))
               [("delta", TNumber, (VFloat f_1e_16, VFloat f_1))]
               [("p", VInt 0)]); [reflexivity..|].
  pose proof (proj1 validate_metric_params_range "wasserstein" _ "p" TInt
                (VInt 1) (VFloat F64.inf) [("p", VInt 0)] (VInt 0)
                eq_refl (or_introl eq_refl) eq_refl eq_refl eq_refl) as [Hiff _].
  destruct (proj2 Hiff eq_refl) as (msg & Hr). rewrite Hr.
  revert Hr. cbv. intros [= <-]. reflexivity.
Defined.

End MetricFacts.

(** * Further properties *)

(** ** Equality of float64 values *)

Section FloatEquality.

Lemma eqb_true_inv (x y : F64.float) :
  F64.eqb x y = true ->
  x = y \/ (exists s s', x = S754_zero s /\ y = S754_zero s').
Proof.
  unfold F64.eqb, SFeqb.
  destruct x as [sx|sx| |sx mx ex], y as [sy|sy| |sy my ey]; simpl;
    try discriminate;
    try (destruct sx; discriminate); try (destruct sy; discriminate).
  - intros _. right. eauto.
  - destruct sx, sy; try discriminate; auto.
  - destruct sx, sy; try discriminate; destruct (ex ?= ey)%Z eqn:He;
      try discriminate; apply Z.compare_eq in He; subst ey;
      destruct (Pos.compare_cont Eq mx my) eqn:Hm; try discriminate;
      apply Pos.compare_eq in Hm; subst my; auto.
Qed.

Lemma eqb_trans (x y z : F64.float) :
  F64.eqb x y = true -> F64.eqb y z = true -> F64.eqb x z = true.
Proof.
  intros Hxy Hyz.
  destruct (eqb_true_inv x y Hxy) as [->|(s & s' & -> & ->)]; [assumption|].
  destruct (eqb_true_inv _ z Hyz) as [<-|(t & t' & _ & ->)]; reflexivity.
Qed.

(** Every value of a list has a representative in its set. *)
Lemma py_set_represents (l : list F64.float) (c : F64.float) :
  In c l -> exists r, In r (py_set l) /\ (r = c \/ F64.eqb r c = true).
Proof.
  induction l as [|a l IH]; simpl; [tauto|].
  intros [->|Hc]; [exists c; auto|].
  destruct (IH Hc) as (r & Hr & Hrc).
  destruct (F64.eqb a r) eqn:E.
  - exists a. split; [now left|]. right.
    destruct Hrc as [->|Hrc]; [assumption|]. now apply (eqb_trans a r c).
  - exists r. split; [|assumption]. right. apply filter_In. now rewrite E.
Qed.

End FloatEquality.

(** ** check_diagram: what an accepted batch satisfies *)

Section DiagramMore.
Import Diagram DiagramSpec ArraySpec.

Lemma zero_nonneg_integer (s : bool) : is_nonneg_integer (S754_zero s).
Proof. exists 0%Z. split; [lia|reflexivity]. Qed.

Lemma check_dim_ok_inv (n : nat) (d : F64.float) :
  check_dim n d = Ok tt -> (d = F64.inf /\ n = 1) \/ is_nonneg_integer d.
Proof.
  unfold check_dim. destruct (F64.eqb d F64.inf) eqn:Einf.
  - apply eqb_inf_r in Einf. destruct (n =? 1) eqn:En; simpl; [|discriminate].
    apply Nat.eqb_eq in En. auto.
  - destruct (F64.to_int d) as [i|e] eqn:Hi; simpl; [|discriminate].
    destruct (F64.eqb_int d i) eqn:Eint; simpl; [|discriminate].
    destruct (F64.eqb d (F64.abs d)) eqn:Eabs; simpl; [|discriminate].
    intros _. right. exists i. split; [|assumption].
    clear Eint. destruct d as [s|s| |s m e']; unfold F64.to_int in Hi;
      try discriminate.
    + injection Hi as <-. lia.
    + destruct s; [simpl in Eabs; discriminate|].
      assert (Hpos : (0 <= if (0 <=? e')%Z then Z.pos m * 2 ^ e'
                           else Z.pos m / 2 ^ (- e'))%Z).
      { destruct (0 <=? e')%Z eqn:He.
        - apply Z.mul_nonneg_nonneg; [lia|]. apply Z.pow_nonneg. lia.
        - apply Z.leb_gt in He. apply Z.div_pos; [lia|].
          apply Z.pow_pos_nonneg; lia. }
      injection Hi as <-. exact Hpos.
Qed.

Lemma check_dims_ok_inv (n : nat) (dims : list F64.float) :
  check_dims n dims = Ok tt -> forall d, In d dims -> check_dim n d = Ok tt.
Proof.
  induction dims as [|a dims IH]; simpl; [intros _ d []|].
  destruct (check_dim n a) as [[]|e] eqn:Ea; simpl; [|discriminate].
  intros H d [<-|Hd]; [assumption|now apply IH].
Qed.

Lemma singleton_In {A} (l : list A) (a x : A) :
  length l = 1 -> In a l -> In x l -> x = a.
Proof.
  destruct l as [|y [|z l]]; simpl; try discriminate.
  intros _ [<-|[]] [<-|[]]. reflexivity.
Qed.

Lemma homology_dimensions_ok_inv (X : ndarray) :
  check_homology_dimensions X = Ok tt -> 0 < axis 0 X /\ valid_labels X.
Proof.
  unfold check_homology_dimensions, first_sample_dims.
  destruct (axis 0 X =? 0) eqn:E0; simpl; [discriminate|].
  apply Nat.eqb_neq in E0. intros Hdims. split; [lia|].
  set (col := map (fun j => get3 X 0 j 2) (seq 0 (axis 1 X))) in *.
  set (dims := py_sorted (py_set col)) in *.
  pose proof (check_dims_ok_inv _ _ Hdims) as Hall.
  assert (Hrep : forall c, In c col ->
            exists r, In r dims /\ (r = c \/ F64.eqb r c = true)).
  { intros c Hc. destruct (py_set_represents col c Hc) as (r & Hr & Hrc).
    exists r. split; [now apply In_py_sorted|assumption]. }
  destruct (existsb (fun d => F64.eqb d F64.inf) dims) eqn:Einf.
  - right. apply existsb_exists in Einf. destruct Einf as (d & Hd & Ed).
    apply eqb_inf_r in Ed. subst d.
    assert (Hlen : length dims = 1).
    { destruct (check_dim_ok_inv _ _ (Hall _ Hd)) as [[_ Hn]|(z & _ & Hz)];
        [assumption|discriminate]. }
    split.
    + exists F64.inf. apply In_first_sample. fold col.
      apply In_py_set. now apply In_py_sorted.
    + intros c Hc. apply In_first_sample in Hc. fold col in Hc.
      destruct (Hrep c Hc) as (r & Hr & Hrc).
      rewrite (singleton_In dims F64.inf r Hlen Hd Hr) in Hrc.
      destruct Hrc as [<-|Hrc]; [reflexivity|now apply eqb_inf_l].
  - left. intros c Hc. apply In_first_sample in Hc. fold col in Hc.
    destruct (Hrep c Hc) as (r & Hr & Hrc).
    assert (Hint : is_nonneg_integer r).
    { destruct (check_dim_ok_inv _ _ (Hall _ Hr)) as [[-> _]|Hint];
        [|assumption].
      assert (Hex : existsb (fun d => F64.eqb d F64.inf) dims = true).
      { apply existsb_exists. now exists F64.inf. }
      congruence. }
    destruct Hrc as [<-|Hrc]; [assumption|].
    destruct (eqb_true_inv r c Hrc) as [<-|(s & s' & _ & ->)];
      [assumption|apply zero_nonneg_integer].
Qed.

(** X1: whatever [check_diagram] returns is its input, and that input is a
    valid batch: 3-dimensional with a third axis of size 3, at least one
    sample, death >= birth at every point, and first-sample labels that are
    non-negative integers or the single label infinity. *)
Theorem check_diagram_sound (X Y : ndarray) :
  check_diagram X = Ok Y ->
  Y = X /\ ndim X = 3 /\ axis 2 X = 3 /\ 0 < axis 0 X /\
  above_diagonal X /\ valid_labels X.
Proof.
  unfold check_diagram.
  destruct (ndim X =? 3) eqn:E3; simpl; [|discriminate].
  destruct (axis 2 X =? 3) eqn:E2; simpl; [|discriminate].
  apply Nat.eqb_eq in E3, E2.
  destruct (check_homology_dimensions X) as [[]|e] eqn:Hd; simpl;
    [|discriminate].
  destruct (n_points_above_diag X =? n_points_global X) eqn:Ec; simpl;
    [|discriminate].
  intros [= <-]. apply Nat.eqb_eq, above_diagonal_count in Ec.
  destruct (homology_dimensions_ok_inv X Hd) as [Hn Hv]. auto 10.
Qed.

Lemma check_diagram_sound_witness :
  above_diagonal small_batch /\ valid_labels small_batch.
Proof.
  assert (H : check_diagram small_batch = Ok small_batch) by reflexivity.
  destruct (check_diagram_sound _ _ H) as (_ & _ & _ & _ & Ha & Hv).
  split; assumption.
Defined.

Lemma check_diagram_returns_input (X Y : ndarray) :
  check_diagram X = Ok Y -> Y = X.
Proof.
  unfold check_diagram.
  destruct (negb (ndim X =? 3)); [discriminate|].
  destruct (negb (axis 2 X =? 3)); [discriminate|].
  destruct (check_homology_dimensions X) as [[]|e]; simpl; [|discriminate].
  destruct (negb (n_points_above_diag X =? n_points_global X));
    [discriminate|]. now intros [= <-].
Qed.

Lemma verdict_ok_iff (X : ndarray) :
  check_diagram X = Ok X <-> verdict (check_diagram X) = Ok tt.
Proof.
  split; [intros ->; reflexivity|].
  destruct (check_diagram X) as [Y|e] eqn:H; [|discriminate].
  intros _. now rewrite (check_diagram_returns_input X Y H).
Qed.

Lemma same_first_sample_same_verdict (X X' : ndarray) :
  shape X = shape X' ->
  (forall i j, i < axis 0 X -> j < axis 1 X ->
     get3 X i j 0 = get3 X' i j 0 /\ get3 X i j 1 = get3 X' i j 1) ->
  (forall j, j < axis 1 X -> get3 X 0 j 2 = get3 X' 0 j 2) ->
  verdict (check_diagram X) = verdict (check_diagram X').
Proof.
  intros Hs Hbd Hl.
  assert (Hax : forall a, axis a X' = axis a X)
    by (intros a; unfold axis; now rewrite Hs).
  assert (Hdims : check_homology_dimensions X' = check_homology_dimensions X).
  { unfold check_homology_dimensions, first_sample_dims. rewrite !Hax.
    destruct (axis 0 X =? 0); [reflexivity|].
    rewrite (map_ext_in (fun j => get3 X 0 j 2) (fun j => get3 X' 0 j 2));
      [reflexivity|].
    intros j Hj. apply in_seq in Hj. apply Hl. lia. }
  assert (Hcount : n_points_above_diag X' = n_points_above_diag X).
  { unfold n_points_above_diag, points. rewrite !Hax. f_equal.
    apply map_ext_in. intros [i j] Hp. apply in_prod_iff in Hp.
    rewrite !in_seq in Hp. simpl.
    destruct (Hbd i j) as [-> ->]; [lia..|reflexivity]. }
  unfold check_diagram, ndim, n_points_global.
  rewrite Hdims, Hcount, !Hax, <- Hs.
  destruct (negb (length (shape X) =? 3)); [reflexivity|].
  destruct (negb (axis 2 X =? 3)); [reflexivity|].
  destruct (check_homology_dimensions X) as [[]|e]; simpl; [|reflexivity].
  destruct (negb (n_points_above_diag X =? axis 0 X * axis 1 X)); reflexivity.
Qed.

(** X2: only the labels of the first sample are ever read.  Two batches of
    the same shape with the same births and deaths and the same labels in
    their first sample are both accepted or both refused, whatever the
    labels of the other samples are; when no label of the first sample is
    NaN, so that the sorted list of labels is determined, they are refused
    with the same exception. *)
Theorem check_diagram_first_sample_only (X X' : ndarray) :
  shape X = shape X' ->
  (forall i j, i < axis 0 X -> j < axis 1 X ->
     get3 X i j 0 = get3 X' i j 0 /\ get3 X i j 1 = get3 X' i j 1) ->
  (forall j, j < axis 1 X -> get3 X 0 j 2 = get3 X' 0 j 2) ->
  (check_diagram X = Ok X <-> check_diagram X' = Ok X') /\
  ((forall j, j < axis 1 X -> get3 X 0 j 2 <> F64.nan) ->
   verdict (check_diagram X) = verdict (check_diagram X')).
Proof.
  intros Hs Hbd Hl.
  pose proof (same_first_sample_same_verdict X X' Hs Hbd Hl) as Hv.
  split; [|intros _; exact Hv].
  rewrite (verdict_ok_iff X), (verdict_ok_iff X'), Hv. reflexivity.
Qed.

Lemma check_diagram_first_sample_only_witness :
  verdict (check_diagram nan_label_batch) = verdict (check_diagram plain_batch).
Proof.
  apply check_diagram_first_sample_only; [reflexivity| | |].
  - intros i j Hi Hj. cbv in Hi, Hj.
    destruct j as [|j]; [|lia]. destruct i as [|[|i]]; [split; reflexivity..|lia].
  - intros j Hj. cbv in Hj. destruct j as [|j]; [reflexivity|lia].
  - intros j Hj. cbv in Hj. destruct j as [|j]; [discriminate|lia].
Defined.

(** X3: a batch without any sample is refused with IndexError, raised by
    [X[0, :, 2]], whatever its number of points per sample. *)
Theorem check_diagram_no_sample (X : ndarray) :
  ndim X = 3 -> axis 2 X = 3 -> axis 0 X = 0 ->
  raises IndexError (check_diagram X).
Proof.
  intros H3 H2 H0. rewrite check_diagram_shape_ok by assumption.
  unfold check_homology_dimensions, first_sample_dims. rewrite H0. simpl.
  eexists. reflexivity.
Qed.

Lemma check_diagram_no_sample_witness :
  raises IndexError (check_diagram no_sample_diagrams).
Proof. apply check_diagram_no_sample; reflexivity. Defined.

(** X4: a point whose birth or death is NaN is not above the diagonal: a
    batch that passes the shape and label checks and has such a point fails
    with the above-diagonal ValueError. *)
Theorem check_diagram_nan_point (X : ndarray) (i j : nat) :
  ndim X = 3 -> axis 2 X = 3 -> check_homology_dimensions X = Ok tt ->
  i < axis 0 X -> j < axis 1 X ->
  get3 X i j 0 = F64.nan \/ get3 X i j 1 = F64.nan ->
  check_diagram X = Raise (Exn ValueError msg_diag).
Proof.
  intros H3 H2 Hd Hi Hj Hnan. rewrite check_diagram_shape_ok by assumption.
  rewrite Hd. simpl.
  destruct (n_points_above_diag X =? n_points_global X) eqn:Ec; [|reflexivity].
  apply Nat.eqb_eq, above_diagonal_count in Ec. specialize (Ec i j Hi Hj).
  destruct Hnan as [Hn|Hn]; rewrite Hn in Ec; [discriminate|].
  destruct (get3 X i j 0) as [s|s| |s m e]; try destruct s; discriminate.
Qed.

Lemma check_diagram_nan_point_witness :
  check_diagram nan_birth_batch = Raise (Exn ValueError msg_diag).
Proof.
  apply (check_diagram_nan_point nan_birth_batch 0 0);
    solve [reflexivity | cbv; lia | now left].
Defined.

Lemma check_dims_kinds (n : nat) (dims : list F64.float) :
  (forall d, In d dims -> d <> F64.neg_inf) ->
  check_dims n dims = Ok tt \/ raises ValueError (check_dims n dims).
Proof.
  induction dims as [|a dims IH]; simpl; [auto|]. intros Hneg.
  destruct (check_dim_kinds n a (Hneg a (or_introl eq_refl))) as [->|(msg & ->)];
    simpl.
  - apply IH. intros d Hd. apply Hneg. now right.
  - right. now exists msg.
Qed.

(** X5: on a batch with at least one sample and no label equal to minus
    infinity in its first sample, [check_diagram] either returns its input
    or fails with ValueError; no other exception can come out. *)
Theorem check_diagram_value_error_only (X : ndarray) :
  0 < axis 0 X ->
  (forall d, first_sample_label X d -> d <> F64.neg_inf) ->
  check_diagram X = Ok X \/ raises ValueError (check_diagram X).
Proof.
  intros Hn Hneg. unfold check_diagram.
  destruct (negb (ndim X =? 3)); [right; eexists; reflexivity|].
  destruct (negb (axis 2 X =? 3)); [right; eexists; reflexivity|].
  rewrite homology_dimensions_nonempty_batch by assumption. cbv zeta.
  set (dims := py_sorted (py_set _)).
  destruct (check_dims_kinds (length dims) dims) as [->|(msg & ->)]; simpl.
  - intros d Hd. apply Hneg, In_first_sample.
    apply In_py_set. now apply In_py_sorted.
  - destruct (negb _); [right; eexists; reflexivity|now left].
  - right. now exists msg.
Qed.

Lemma check_diagram_value_error_only_witness :
  check_diagram zero_inf_batch = Ok zero_inf_batch \/
  raises ValueError (check_diagram zero_inf_batch).
Proof.
  apply check_diagram_value_error_only; [cbv; lia|].
  intros d (j & Hj & ->). cbv in Hj.
  destruct j as [|[|j]]; [discriminate..|lia].
Defined.

End DiagramMore.

(** ** Sums of non-negative float64 values *)

Section FloatSums.
Import FloatSpec.

Lemma shr_1_m (mrs : shr_record) :
  (0 <= shr_m mrs)%Z -> shr_m (shr_1 mrs) = (shr_m mrs / 2)%Z.
Proof.
  destruct mrs as [m r s]. simpl. intros Hm.
  destruct m as [|p|p]; [reflexivity| |lia].
  destruct p as [p|p|]; simpl.
  - apply (Z.div_unique_pos _ _ _ 1); lia.
  - apply (Z.div_unique_pos _ _ _ 0); lia.
  - reflexivity.
Qed.

Lemma iter_shr_1_m (p : positive) (mrs : shr_record) :
  (0 <= shr_m mrs)%Z ->
  shr_m (iter_pos shr_1 p mrs) = (shr_m mrs / 2 ^ Zpos p)%Z.
Proof.
  revert mrs. induction p as [p IH|p IH|]; intros mrs Hm; simpl iter_pos.
  - assert (H1 : (0 <= shr_m (shr_1 mrs))%Z).
    { rewrite shr_1_m by assumption. apply Z.div_pos; lia. }
    assert (H2 : (0 <= shr_m (iter_pos shr_1 p (shr_1 mrs)))%Z).
    { rewrite IH by assumption. apply Z.div_pos; [assumption|].
      apply Z.pow_pos_nonneg; lia. }
    rewrite IH, IH, shr_1_m by assumption.
    assert (Hp : (0 < 2 ^ Zpos p)%Z) by (apply Z.pow_pos_nonneg; lia).
    rewrite !Z.div_div by lia. f_equal.
    replace (Zpos p~1) with (Zpos p + Zpos p + 1)%Z by lia.
    rewrite !Z.pow_add_r by lia. change (2 ^ 1)%Z with 2%Z. ring.
  - assert (H2 : (0 <= shr_m (iter_pos shr_1 p mrs))%Z).
    { rewrite IH by assumption. apply Z.div_pos; [assumption|].
      apply Z.pow_pos_nonneg; lia. }
    rewrite IH, IH by assumption.
    assert (Hp : (0 < 2 ^ Zpos p)%Z) by (apply Z.pow_pos_nonneg; lia).
    rewrite Z.div_div by lia. f_equal.
    replace (Zpos p~0) with (Zpos p + Zpos p)%Z by lia.
    rewrite Z.pow_add_r by lia. reflexivity.
  - rewrite shr_1_m by assumption. reflexivity.
Qed.

Lemma digits2_pos_lower (m : positive) :
  (2 ^ (Zpos (digits2_pos m) - 1) <= Zpos m)%Z.
Proof.
  induction m as [m IH|m IH|]; simpl digits2_pos.
  - rewrite Pos2Z.inj_succ. replace (Z.succ (Zpos (digits2_pos m)) - 1)%Z
      with (Z.succ (Zpos (digits2_pos m) - 1)) by lia.
    rewrite Z.pow_succ_r by lia. lia.
  - rewrite Pos2Z.inj_succ. replace (Z.succ (Zpos (digits2_pos m)) - 1)%Z
      with (Z.succ (Zpos (digits2_pos m) - 1)) by lia.
    rewrite Z.pow_succ_r by lia. lia.
  - simpl. lia.
Qed.

Lemma shr_fexp_pos (q : positive) (e : Z) (l : location) :
  (emin F64.prec F64.emax <= e)%Z ->
  (1 <= shr_m (fst (shr_fexp F64.prec F64.emax (Zpos q) e l)))%Z /\
  (emin F64.prec F64.emax <= snd (shr_fexp F64.prec F64.emax (Zpos q) e l))%Z.
Proof.
  intros He. unfold shr_fexp, shr.
  assert (Hm : shr_m (shr_record_of_loc (Zpos q) l) = Zpos q)
    by (destruct l as [|[]]; reflexivity).
  destruct (fexp F64.prec F64.emax (Zdigits2 (Zpos q) + e) - e)%Z
    as [|p|p] eqn:Hn; simpl fst; simpl snd; try (rewrite Hm; lia).
  rewrite iter_shr_1_m by (rewrite Hm; lia). rewrite Hm. split; [|lia].
  apply Z.div_le_lower_bound; [apply Z.pow_pos_nonneg; lia|].
  rewrite Z.mul_1_r. pose proof (digits2_pos_lower q) as Hd.
  apply Z.le_trans with (2 := Hd). apply Z.pow_le_mono_r; [lia|].
  unfold fexp, emin, F64.prec, F64.emax, Zdigits2 in *. lia.
Qed.

Lemma binary_round_aux_nonneg (q : positive) (e : Z) (l : location) :
  (emin F64.prec F64.emax <= e)%Z ->
  nonneg_class (binary_round_aux F64.prec F64.emax false (Zpos q) e l) /\
  is_zero (binary_round_aux F64.prec F64.emax false (Zpos q) e l) = false.
Proof.
  intros He. unfold binary_round_aux.
  destruct (shr_fexp_pos q e l He) as [Hm1 He1].
  destruct (shr_fexp F64.prec F64.emax (Zpos q) e l) as [mrs' e'].
  simpl fst in Hm1. simpl snd in He1.
  assert (Hr : (1 <= round_nearest_even (shr_m mrs') (loc_of_shr_record mrs'))%Z).
  { unfold round_nearest_even.
    destruct (loc_of_shr_record mrs') as [|[]]; try lia.
    destruct (Z.even (shr_m mrs')); lia. }
  destruct (round_nearest_even (shr_m mrs') (loc_of_shr_record mrs'))
    as [|q2|q2]; try lia.
  destruct (shr_fexp_pos q2 e' loc_Exact He1) as [Hm2 He2].
  destruct (shr_fexp F64.prec F64.emax (Zpos q2) e' loc_Exact) as [mrs'' e''].
  simpl fst in Hm2. simpl snd in He2.
  destruct (shr_m mrs'') as [|q3|q3]; try lia.
  destruct (e'' <=? F64.emax - F64.prec)%Z; simpl; auto.
Qed.

Lemma binary_round_nonneg (q : positive) (e : Z) :
  (emin F64.prec F64.emax <= e)%Z ->
  nonneg_class (binary_round F64.prec F64.emax false q e) /\
  is_zero (binary_round F64.prec F64.emax false q e) = false.
Proof.
  intros He. unfold binary_round, shl_align.
  destruct (fexp F64.prec F64.emax (Zpos (digits2_pos q) + e) - e)%Z
    as [|d|d] eqn:Hd; try (now apply binary_round_aux_nonneg).
  apply binary_round_aux_nonneg. unfold fexp. lia.
Qed.

(** Adding two non-negative values gives a non-negative value, which is a
    zero only when both operands are. *)
Lemma add_nonneg (x y : F64.float) :
  nonneg_class x -> nonneg_class y ->
  nonneg_class (F64.add x y) /\
  (is_zero (F64.add x y) = true -> is_zero x = true /\ is_zero y = true).
Proof.
  intros Hx Hy. unfold F64.add.
  destruct x as [sx|sx| |sx mx ex], y as [sy|sy| |sy my ey];
    simpl in Hx, Hy; try contradiction;
    repeat match goal with
           | H : _ /\ _ |- _ => destruct H
           | H : ?s = false |- _ => subst s
           end;
    try solve [ simpl; split; [auto | intros; try discriminate; auto] ].
  - destruct sx, sy; simpl; auto.
  - unfold SFadd, cond_Zopp. set (ez := Z.min ex ey).
    change (Zpos (fst (shl_align mx ex ez)) + Zpos (fst (shl_align my ey ez)))%Z
      with (Zpos (fst (shl_align mx ex ez) + fst (shl_align my ey ez))).
    unfold binary_normalize.
    destruct (binary_round_nonneg
                (fst (shl_align mx ex ez) + fst (shl_align my ey ez)) ez)
      as [Hn Hz]; [unfold ez; lia|].
    split; [assumption|]. rewrite Hz. discriminate.
Qed.

Lemma sum_nonneg (l : list F64.float) (acc : F64.float) :
  nonneg_class acc -> (forall x, In x l -> nonneg_class x) ->
  nonneg_class (fold_left F64.add l acc) /\
  (is_zero (fold_left F64.add l acc) = true ->
   is_zero acc = true /\ forall x, In x l -> is_zero x = true).
Proof.
  revert acc. induction l as [|a l IH]; intros acc Hacc Hl; simpl.
  - split; [assumption|]. intros H. split; [assumption|intros x []].
  - destruct (add_nonneg acc a Hacc (Hl a (or_introl eq_refl))) as [Hn Hz].
    destruct (IH (F64.add acc a) Hn (fun x Hx => Hl x (or_intror Hx)))
      as [Hn' Hz'].
    split; [assumption|]. intros H. destruct (Hz' H) as [H1 H2].
    destruct (Hz H1) as [H3 H4]. split; [assumption|].
    intros x [<-|Hx]; auto.
Qed.

Lemma eqb_zero_is_zero (x : F64.float) :
  F64.eqb x F64.zero = true <-> is_zero x = true.
Proof.
  destruct x as [s|s| |s m e]; simpl; try (destruct s); simpl;
    split; try discriminate; reflexivity.
Qed.

Lemma nonneg_class_intro (x : F64.float) :
  valid_float x -> x <> F64.nan -> F64.ltb x F64.zero = false ->
  nonneg_class x.
Proof.
  unfold valid_float. destruct x as [s|s| |s m e]; simpl.
  - auto.
  - intros _ _. destruct s; [discriminate|reflexivity].
  - intros _ H. now exfalso.
  - intros Hv _ Hlt. destruct s; [discriminate|]. split; [reflexivity|].
    unfold bounded, canonical_mantissa in Hv.
    apply andb_true_iff in Hv. destruct Hv as [Hc _].
    apply Z.eqb_eq in Hc. unfold fexp in Hc. lia.
Qed.

End FloatSums.

(** ** check_graph: empty batches and what an accepted batch satisfies *)

Section GraphMore.
Import Graph GraphSpec ArraySpec FloatSpec.

Lemma In_indices3 (X : ndarray) (i j k : nat) :
  In (i, j, k) (indices3 X) <-> in_range3 X i j k.
Proof.
  unfold indices3, in_range3. rewrite in_prod_iff, In_points, in_seq. lia.
Qed.

Lemma isclose_not_nan (a b : F64.float) : isclose a b = true -> a <> F64.nan.
Proof. intros H ->. discriminate. Qed.

(** X6: a batch of square matrices without any sample passes every check and
    is returned unchanged. *)
Theorem check_graph_no_sample (X : ndarray) :
  wf X -> ndim X = 3 -> axis 1 X = axis 2 X -> axis 0 X = 0 ->
  check_graph X = Ok X.
Proof.
  intros Hwf H3 Hsq H0. rewrite check_graph_shape_ok by assumption.
  assert (Hp : points X = []) by (unfold points; now rewrite H0).
  assert (Hd : data X = []).
  { unfold wf, size, ndim, axis in *. destruct X as [sh dat]. simpl in *.
    destruct sh as [|a sh]; [discriminate|]. simpl in *. subst a.
    simpl in Hwf. now destruct dat. }
  unfold diagonal_sum, diagonal, allclose_transpose, indices3, n_negative.
  rewrite Hp, Hd. reflexivity.
Qed.

Lemma check_graph_no_sample_witness :
  check_graph no_sample_graphs = Ok no_sample_graphs.
Proof. apply check_graph_no_sample; reflexivity. Defined.

Lemma check_graph_accepts_inv (X Y : ndarray) :
  check_graph X = Ok Y ->
  Y = X /\ ndim X = 3 /\ axis 1 X = axis 2 X /\
  F64.eqb (diagonal_sum X) F64.zero = true /\ nonnegative X /\
  forall i j k, in_range3 X i j k ->
    isclose (get3 X i j k) (get3 X i k j) = true /\ get3 X i j k <> F64.nan.
Proof.
  unfold check_graph.
  destruct (ndim X =? 3) eqn:E3; simpl; [|discriminate].
  destruct (axis 1 X =? axis 2 X) eqn:Esq; simpl; [|discriminate].
  destruct (F64.eqb (diagonal_sum X) F64.zero); simpl; [|discriminate].
  destruct (allclose_transpose X) eqn:Esym; simpl; [|discriminate].
  destruct (0 <? n_negative X) eqn:Eneg; [discriminate|].
  intros [= <-]. apply Nat.eqb_eq in E3, Esq. apply Nat.ltb_ge in Eneg.
  repeat (split; [solve [auto]|]). split.
  - apply n_negative_zero. lia.
  - intros i j k Hr. unfold allclose_transpose in Esym.
    rewrite forallb_forall in Esym.
    specialize (Esym (i, j, k) (proj2 (In_indices3 X i j k) Hr)).
    simpl in Esym. split; [assumption|]. now apply isclose_not_nan in Esym.
Qed.

(** X7: whatever [check_graph] returns is its input, and that input is
    3-dimensional with square matrices, has no negative entry, and every
    entry is within tolerance of its mirror entry and is not NaN. *)
Theorem check_graph_sound (X Y : ndarray) :
  check_graph X = Ok Y ->
  Y = X /\ ndim X = 3 /\ axis 1 X = axis 2 X /\ nonnegative X /\
  forall i j k, in_range3 X i j k ->
    isclose (get3 X i j k) (get3 X i k j) = true /\ get3 X i j k <> F64.nan.
Proof.
  intros H. destruct (check_graph_accepts_inv X Y H) as (H1 & H2 & H3 & _ & H4).
  auto.
Qed.

Lemma check_graph_sound_witness :
  nonnegative edge_batch.
Proof.
  assert (H : check_graph edge_batch = Ok edge_batch) by reflexivity.
  exact (proj1 (proj2 (proj2 (proj2 (check_graph_sound _ _ H))))).
Defined.

(** X8: an accepted batch has an exactly zero diagonal.  The check only
    tests that the diagonal sums to zero, but the entries of an accepted
    batch are non-negative and not NaN, and a rounded sum of such float64
    values is zero only when each of them is. *)
Theorem check_graph_zero_diagonal (X : ndarray) :
  wf X -> (forall x, In x (data X) -> valid_float x) ->
  check_graph X = Ok X ->
  forall d, diagonal_entry X d -> F64.eqb d F64.zero = true.
Proof.
  intros Hwf Hvalid Hok.
  destruct (check_graph_accepts_inv X X Hok)
    as (_ & H3 & Hsq & Hsum & Hnn & Hclose).
  assert (Hclass : forall d, In d (diagonal X) -> nonneg_class d).
  { intros d Hd. apply In_diagonal in Hd.
    destruct Hd as (i & j & Hi & Hj & ->).
    assert (Hr : in_range3 X i j j) by (unfold in_range3; lia).
    assert (Hin : In (get3 X i j j) (data X))
      by (apply get3_In; solve [assumption | lia]).
    apply nonneg_class_intro; [now apply Hvalid|apply (Hclose i j j Hr)|].
    now apply Hnn. }
  destruct (sum_nonneg (diagonal X) F64.zero I Hclass) as [_ Hz].
  apply eqb_zero_is_zero in Hsum. destruct (Hz Hsum) as [_ Hall].
  intros d Hd. apply eqb_zero_is_zero, Hall. now apply In_diagonal.
Qed.

Lemma check_graph_zero_diagonal_witness :
  F64.eqb (get3 edge_batch 0 1 1) F64.zero = true.
Proof.
  apply (check_graph_zero_diagonal edge_batch); [reflexivity| |reflexivity|].
  - intros x Hx. cbv in Hx. intuition (subst; reflexivity).
  - exists 0, 1. repeat split; cbv; lia.
Defined.

End GraphMore.

(** ** check_graph: the zero-diagonal check, for every order of summation *)

Section GraphDiagonal.
Import Graph GraphSpec FloatSpec GraphSum.

Lemma float_eq_dec (x y : F64.float) : {x = y} + {x <> y}.
Proof.
  decide equality; solve [apply Bool.bool_dec | apply Z.eq_dec | apply Pos.eq_dec].
Defined.

Lemma sum_order_fold (l la : list F64.float) (acc : F64.float) :
  sum_order la acc -> sum_order (la ++ l) (fold_left F64.add l acc).
Proof.
  revert la acc. induction l as [|a l IH]; intros la acc Hacc; simpl.
  - now rewrite app_nil_r.
  - replace (la ++ a :: l) with ((la ++ [a]) ++ l)
      by (rewrite <- app_assoc; reflexivity).
    apply IH. apply (sum_join _ la [a]); [reflexivity|assumption|].
    apply sum_single.
Qed.

(** The left-to-right sum is one of the orders. *)
Lemma sum_order_left_to_right (l : list F64.float) : sum_order l (Np.sum l).
Proof. apply (sum_order_fold l [] F64.zero). apply sum_nil. Qed.

(** In every order, a sum of non-negative values is non-negative, and it is
    a zero only when every value is. *)
Lemma sum_order_nonneg (l : list F64.float) (s : F64.float) :
  sum_order l s -> (forall x, In x l -> nonneg_class x) ->
  nonneg_class s /\ (is_zero s = true -> forall x, In x l -> is_zero x = true).
Proof.
  induction 1 as [|x|l l1 l2 s1 s2 Hp H1 IH1 H2 IH2]; intros Hl.
  - split; [exact I|intros _ x []].
  - split; [apply Hl; now left|]. intros Hz y [<-|[]]. assumption.
  - assert (Hin : forall x, In x l <-> In x l1 \/ In x l2).
    { intros x. rewrite <- in_app_iff. split; apply Permutation_in;
        [assumption|now apply Permutation_sym]. }
    destruct IH1 as [Hn1 Hz1]; [intros x Hx; apply Hl, Hin; now left|].
    destruct IH2 as [Hn2 Hz2]; [intros x Hx; apply Hl, Hin; now right|].
    destruct (add_nonneg s1 s2 Hn1 Hn2) as [Hn Hz]. split; [assumption|].
    intros H x Hx. destruct (Hz H) as [Ha Hb].
    apply Hin in Hx. destruct Hx as [Hx|Hx]; auto.
Qed.

Lemma count_occ_zero_class (l : list F64.float) (x : F64.float) :
  is_zero x = false -> (forall z, In z l -> is_zero z = true) ->
  count_occ float_eq_dec l x = 0.
Proof.
  intros Hx Hl. apply count_occ_not_In. intros Hin.
  rewrite (Hl x Hin) in Hx. discriminate.
Qed.

(** In every order, the sum of at most one +1, at most one -1 and zeros is
    exact. *)
Lemma sum_order_plus_minus_one (l : list F64.float) (s : F64.float) :
  sum_order l s ->
  (forall x, In x l -> x = g_1 \/ x = g_minus_1 \/ is_zero x = true) ->
  count_occ float_eq_dec l g_1 <= 1 ->
  count_occ float_eq_dec l g_minus_1 <= 1 ->
  match count_occ float_eq_dec l g_1, count_occ float_eq_dec l g_minus_1 with
  | 1, 0 => s = g_1
  | 0, 1 => s = g_minus_1
  | _, _ => is_zero s = true
  end.
Proof.
  induction 1 as [|x|l l1 l2 s1 s2 Hp H1 IH1 H2 IH2]; intros Hl Hc1 Hc2.
  - reflexivity.
  - destruct (Hl x (or_introl eq_refl)) as [->|[->|Hz]]; [reflexivity..|].
    destruct x as [b| | |]; try discriminate. reflexivity.
  - assert (Hin : forall x, In x l1 \/ In x l2 -> In x l).
    { intros x Hx. apply (Permutation_in x (Permutation_sym Hp)).
      now apply in_or_app. }
    rewrite (Permutation_count_occ float_eq_dec) in Hp.
    rewrite !Hp, !count_occ_app in *.
    specialize (IH1 (fun x Hx => Hl x (Hin x (or_introl Hx)))).
    specialize (IH2 (fun x Hx => Hl x (Hin x (or_intror Hx)))).
    destruct (count_occ float_eq_dec l1 g_1) as [|[|a]],
             (count_occ float_eq_dec l1 g_minus_1) as [|[|b]],
             (count_occ float_eq_dec l2 g_1) as [|[|c]],
             (count_occ float_eq_dec l2 g_minus_1) as [|[|d]];
      simpl in Hc1, Hc2; try lia;
      specialize (IH1 ltac:(lia) ltac:(lia));
      specialize (IH2 ltac:(lia) ltac:(lia)); simpl in IH1, IH2 |- *;
      subst;
      repeat match goal with
             | H : is_zero ?x = true |- _ =>
                 destruct x as [[|]| | |]; try discriminate H; clear H
             end;
      reflexivity.
Qed.

Lemma check_graph_with_shape_ok (s : F64.float) (X : ndarray) :
  ndim X = 3 -> axis 1 X = axis 2 X ->
  check_graph_with s X =
  if negb (F64.eqb s F64.zero) then Raise (Exn ValueError msg_diagonal)
  else if negb (allclose_transpose X) then Raise (Exn ValueError msg_symmetric)
  else if 0 <? n_negative X then Raise (Exn ValueError msg_negative)
  else Ok X.
Proof.
  intros H3 Hsq. unfold check_graph_with. rewrite H3. simpl.
  apply Nat.eqb_eq in Hsq. now rewrite Hsq.
Qed.

(** C8: the zero-diagonal check of [check_graph] raises its ValueError
    exactly when the sum [s] that numpy computes over all diagonal entries
    [X[i, j, j]] is nonzero, whatever order numpy adds them in.  A diagonal
    of non-negative values with a positive one has a nonzero sum in every
    order and is refused; a diagonal made of +1, -1 and zeros sums to zero in
    every order and passes the check although its entries are not all zero. *)
Theorem check_graph_diagonal_sum :
  (forall X, sum_order (diagonal X) (diagonal_sum X) /\
             check_graph X = check_graph_with (diagonal_sum X) X) /\
  (forall X d, In d (diagonal X) <-> diagonal_entry X d) /\
  (forall X s, ndim X = 3 -> axis 1 X = axis 2 X ->
     (check_graph_with s X = Raise (Exn ValueError msg_diagonal)
      <-> F64.eqb s F64.zero = false)) /\
  (forall X s, ndim X = 3 -> axis 1 X = axis 2 X ->
     sum_order (diagonal X) s ->
     (forall d, diagonal_entry X d ->
        valid_float d /\ d <> F64.nan /\ F64.ltb d F64.zero = false) ->
     (exists d, diagonal_entry X d /\ F64.eqb d F64.zero = false) ->
     check_graph_with s X = Raise (Exn ValueError msg_diagonal)) /\
  (forall X s zeros, ndim X = 3 -> axis 1 X = axis 2 X ->
     sum_order (diagonal X) s ->
     Permutation (diagonal X) (g_1 :: g_minus_1 :: zeros) ->
     (forall z, In z zeros -> F64.eqb z F64.zero = true) ->
     F64.eqb s F64.zero = true /\
     check_graph_with s X <> Raise (Exn ValueError msg_diagonal) /\
     check_graph_with s X =
     if negb (allclose_transpose X) then Raise (Exn ValueError msg_symmetric)
     else if 0 <? n_negative X then Raise (Exn ValueError msg_negative)
     else Ok X) /\
  (diagonal cancelling_batch = [g_1; g_minus_1] /\
   check_graph cancelling_batch = Raise (Exn ValueError msg_negative)) /\
  (diagonal unit_diagonal_batch = [g_1; F64.zero] /\
   check_graph unit_diagonal_batch = Raise (Exn ValueError msg_diagonal)).
Proof.
  assert (Hiff : forall X s, ndim X = 3 -> axis 1 X = axis 2 X ->
     (check_graph_with s X = Raise (Exn ValueError msg_diagonal)
      <-> F64.eqb s F64.zero = false)).
  { intros X s H3 Hsq. rewrite check_graph_with_shape_ok by assumption.
    destruct (F64.eqb s F64.zero); simpl.
    - split; [|discriminate].
      destruct (negb (allclose_transpose X)); [discriminate|].
      destruct (0 <? n_negative X); discriminate.
    - tauto. }
  split; [|split; [exact In_diagonal|split; [exact Hiff|split; [|split]]]].
  - intros X. split; [apply sum_order_left_to_right|reflexivity].
  - intros X s H3 Hsq Hs Hclass (d & Hd & Hnz). apply Hiff; try assumption.
    destruct (F64.eqb s F64.zero) eqn:Hz; [|reflexivity]. exfalso.
    destruct (sum_order_nonneg _ _ Hs) as [_ Hall].
    { intros x Hx. apply In_diagonal in Hx.
      destruct (Hclass x Hx) as (Hv & Hnan & Hlt).
      now apply nonneg_class_intro. }
    apply eqb_zero_is_zero in Hz. apply In_diagonal in Hd.
    pose proof (Hall Hz d Hd) as Hdz. apply eqb_zero_is_zero in Hdz.
    congruence.
  - intros X s zeros H3 Hsq Hs Hp Hzeros.
    assert (Hz : forall z, In z zeros -> is_zero z = true)
      by (intros z Hin; now apply eqb_zero_is_zero, Hzeros).
    assert (Hsz : F64.eqb s F64.zero = true).
    { apply eqb_zero_is_zero.
      pose proof (sum_order_plus_minus_one _ _ Hs) as Hpm.
      pose proof (proj1 (Permutation_count_occ float_eq_dec _ _) Hp) as Hc.
      rewrite !Hc in Hpm. simpl in Hpm.
      rewrite (count_occ_zero_class zeros g_1 eq_refl Hz),
              (count_occ_zero_class zeros g_minus_1 eq_refl Hz) in Hpm.
      apply Hpm; [|lia|lia].
      intros x Hx. apply (Permutation_in x Hp) in Hx.
      destruct Hx as [<-|[<-|Hx]]; auto. }
    split; [assumption|]. split.
    + intros Hr. apply Hiff in Hr; congruence.
    + rewrite check_graph_with_shape_ok by assumption. now rewrite Hsz.
  - repeat split.
Qed.

Lemma check_graph_diagonal_sum_witness :
  check_graph_with (diagonal_sum unit_diagonal_batch) unit_diagonal_batch
  = Raise (Exn ValueError msg_diagonal) /\
  F64.eqb (diagonal_sum cancelling_batch) F64.zero = true.
Proof.
  destruct check_graph_diagonal_sum as (Hmodel & _ & _ & Hraise & Hpass & _).
  split.
  - apply Hraise; try reflexivity.
    + apply Hmodel.
    + intros d (i & j & Hi & Hj & ->). cbv in Hi, Hj.
      destruct i as [|i]; [|lia].
      destruct j as [|[|j]]; [| |lia]; repeat split; discriminate.
    + exists g_1. split; [|reflexivity]. exists 0, 0. repeat split; cbv; lia.
  - apply (Hpass cancelling_batch _ []); try reflexivity.
    + apply Hmodel.
    + intros z [].
Defined.

End GraphDiagonal.

(** ** validate_params: what each kind of declaration enforces *)

Section ParamsMore.
Import Params ParamsSpec MetricSpec DeclarationSpec.

Lemma check_keys_raise (parameters references : dict pyval)
      (pre post : list string) (key : string) (e : exn) :
  gets_past parameters references pre ->
  check_key parameters references key = Raise e ->
  check_keys parameters references (pre ++ key :: post) = Raise e.
Proof.
  intros Hpre Hkey. rewrite check_keys_gets_past by assumption. simpl.
  now rewrite Hkey.
Qed.

Lemma check_keys_agree (P P' R : dict pyval) (ks : list string) :
  (forall k, In k ks -> dict_get P k = dict_get P' k) ->
  check_keys P R ks = check_keys P' R ks.
Proof.
  induction ks as [|k ks IH]; intros H; simpl; [reflexivity|].
  assert (Hk : check_key P R k = check_key P' R k).
  { unfold check_key, dict_getitem. now rewrite (H k (or_introl eq_refl)). }
  rewrite Hk. destruct (check_key P' R k) as [[]|e]; simpl; try reflexivity.
  apply IH. intros k' Hk'. apply H. now right.
Qed.

(** X9: entries of [parameters] whose key is not declared in [references]
    are never looked at: two parameter dictionaries that agree on the keys
    of [references] get the same result. *)
Theorem validate_params_ignores_undeclared (P P' R : dict pyval) :
  (forall k, In k (keys R) -> dict_get P k = dict_get P' k) ->
  validate_params P R = validate_params P' R.
Proof. intros H. unfold validate_params. now apply check_keys_agree. Qed.

Lemma validate_params_ignores_undeclared_witness :
  validate_params [("a", VInt 1)] [("a", decl_int)]
  = validate_params [("zzz", VStr "junk"); ("a", VInt 1)] [("a", decl_int)].
Proof.
  apply validate_params_ignores_undeclared.
  intros k [<-|[]]. reflexivity.
Defined.

(** X10: when the loop reaches a key whose supplied value is not an instance
    of the declared type, [validate_params] fails with TypeError, whatever
    constraint follows the type in the declaration. *)
Theorem validate_params_type_error
        (parameters references : dict pyval) (pre post : list string)
        (key : string) (v ref : pyval) (ty : pytype) :
  keys references = pre ++ key :: post ->
  gets_past parameters references pre ->
  dict_get parameters key = Some v -> dict_get references key = Some ref ->
  py_getitem ref 0 = Ok (VType ty) -> issubclass (type_of v) ty = false ->
  validate_params parameters references = Raise (Exn TypeError msg_type).
Proof.
  intros Hkeys Hpre Hv Href Hty Hsub. unfold validate_params. rewrite Hkeys.
  apply check_keys_raise; [assumption|].
  unfold check_key, dict_getitem. rewrite Hv, Href. simpl. rewrite Hty. simpl.
  now rewrite Hsub.
Qed.

Lemma validate_params_type_error_witness :
  validate_params [("a", VInt 1); ("b", VFloat F64.zero)]
                  [("a", decl_int); ("b", VList [VType TInt; VNone])]
  = Raise (Exn TypeError msg_type).
Proof.
  apply (validate_params_type_error _ _ ["a"] [] "b" (VFloat F64.zero)
           (VList [VType TInt; VNone]) TInt);
    try reflexivity.
  constructor; [reflexivity|constructor].
Defined.

Lemma num_compare_refl (a : num) :
  num_is_nan a = false -> num_compare a a = Some Eq.
Proof.
  destruct a as [z|x]; simpl.
  - intros _. now rewrite Z.compare_refl.
  - destruct x as [s|s| |s m e]; simpl; try discriminate; intros _.
    + reflexivity.
    + now destruct s.
    + apply SFcompare_refl_finite.
Qed.

(** The range test on ordered numbers. *)
Lemma check_range_numbers (v lo hi : pyval) (rest : list pyval) (msg : string) :
  ordered_number v = true -> ordered_number lo = true ->
  ordered_number hi = true ->
  check_range v (Ok (VTuple (lo :: hi :: rest))) msg
  = if within_range v lo hi then Ok tt else Raise (Exn ValueError msg).
Proof.
  intros Hv Hlo Hhi.
  destruct (ordered_number_spec v Hv) as (x & Hx & Hnx).
  destruct (ordered_number_spec lo Hlo) as (a & Ha & Hna).
  destruct (ordered_number_spec hi Hhi) as (b & Hb & Hnb).
  unfold check_range, py_gt, within_range. cbn [bind py_getitem nth_error].
  rewrite (py_lt_num v lo x a Hx Ha), (py_lt_num hi v b x Hb Hx).
  rewrite Hx, Ha, Hb. cbn [bind].
  rewrite (num_ltb_negb_leb x a Hnx Hna), (num_ltb_negb_leb b x Hnb Hnx).
  destruct (num_leb a x), (num_leb x b); reflexivity.
Qed.

Lemma num_ltb_nan (x a : num) :
  num_is_nan x = true -> num_ltb x a = false /\ num_ltb a x = false.
Proof.
  destruct x as [z|[s|s| |s m e]]; try discriminate. intros _.
  unfold num_ltb. destruct a as [y|y]; simpl.
  - split; reflexivity.
  - split; [reflexivity|]. now destruct y.
Qed.

(** The range test on a [bool], [int] or [float]: NaN passes it. *)
Lemma check_range_real (v lo hi : pyval) (x : num) (rest : list pyval)
      (msg : string) :
  as_num v = Some x -> ordered_number lo = true -> ordered_number hi = true ->
  check_range v (Ok (VTuple (lo :: hi :: rest))) msg
  = if num_is_nan x || within_range v lo hi then Ok tt
    else Raise (Exn ValueError msg).
Proof.
  intros Hx Hlo Hhi. destruct (num_is_nan x) eqn:Hnan; cbn [orb].
  - destruct (ordered_number_spec lo Hlo) as (a & Ha & _).
    destruct (ordered_number_spec hi Hhi) as (b & Hb & _).
    unfold check_range, py_gt. cbn [bind py_getitem nth_error].
    rewrite (py_lt_num v lo x a Hx Ha), (py_lt_num hi v b x Hb Hx).
    cbn [bind]. destruct (num_ltb_nan x a Hnan) as [-> _].
    destruct (num_ltb_nan x b Hnan) as [_ ->]. reflexivity.
  - apply check_range_numbers; try assumption.
    unfold ordered_number. now rewrite Hx, Hnan.
Qed.

(** X11: a declaration [type, (min, max)] of a scalar parameter, with
    bounds that are numbers other than NaN, and a supplied [bool], [int] or
    [float] of that type.  A value other than NaN is accepted exactly when
    [min <= value <= max]: outside, [validate_params] fails with ValueError;
    inside, the loop goes on; both bounds are themselves accepted.  A NaN
    value passes the test. *)
Theorem validate_params_scalar_range
        (parameters references : dict pyval) (pre post : list string)
        (key : string) (v ref lo hi : pyval) (x : num) (rest : list pyval)
        (ty : pytype) (n : nat) :
  keys references = pre ++ key :: post ->
  gets_past parameters references pre ->
  dict_get parameters key = Some v -> dict_get references key = Some ref ->
  py_getitem ref 0 = Ok (VType ty) -> pytype_eqb ty TList = false ->
  py_len ref = Ok n -> n <> 1 ->
  py_getitem ref 1 = Ok (VTuple (lo :: hi :: rest)) ->
  issubclass (type_of v) ty = true -> as_num v = Some x ->
  ordered_number lo = true -> ordered_number hi = true ->
  (num_is_nan x = false -> within_range v lo hi = false ->
   validate_params parameters references = Raise (Exn ValueError msg_range)) /\
  (num_is_nan x = false -> within_range v lo hi = true ->
   check_key parameters references key = Ok Next) /\
  (num_is_nan x = true -> check_key parameters references key = Ok Next) /\
  (number_le lo hi = true ->
   within_range lo lo hi = true /\ within_range hi lo hi = true).
Proof.
  intros Hkeys Hpre Hv Href Hty Hnl Hlen Hn Hc Hsub Hx Holo Hohi.
  assert (Hkey : check_key parameters references key
                 = if num_is_nan x || within_range v lo hi then Ok Next
                   else Raise (Exn ValueError msg_range)).
  { unfold check_key, dict_getitem. rewrite Hv, Href. cbn [bind].
    rewrite Hty. cbn [bind py_isinstance]. rewrite Hsub. cbn [negb].
    rewrite Hlen. cbn [bind]. apply Nat.eqb_neq in Hn. rewrite Hn.
    cbn [py_eq]. rewrite Hnl, Hc.
    cbn [bind py_isinstance type_of issubclass pytype_eqb orb].
    rewrite (check_range_real v lo hi x rest msg_range Hx Holo Hohi).
    destruct (num_is_nan x || within_range v lo hi); reflexivity. }
  split; [|split; [|split]].
  - intros Hnan Hout. unfold validate_params. rewrite Hkeys.
    apply check_keys_raise; [assumption|]. now rewrite Hkey, Hnan, Hout.
  - intros Hnan Hin. now rewrite Hkey, Hnan, Hin.
  - intros Hnan. now rewrite Hkey, Hnan.
  - intros Hle.
    destruct (ordered_number_spec lo Holo) as (a & Ha & Hna).
    destruct (ordered_number_spec hi Hohi) as (b & Hb & Hnb).
    unfold within_range, number_le in *. rewrite Ha, Hb in *.
    unfold num_leb at 1 4.
    rewrite (num_compare_refl a Hna), (num_compare_refl b Hnb), Hle.
    split; reflexivity.
Qed.

Lemma validate_params_scalar_range_witness :
  validate_params [("a", VInt 7)] [("a", VList [VType TInt; range_0_5])]
  = Raise (Exn ValueError msg_range).
Proof.
  apply (proj1 (validate_params_scalar_range
                  [("a", VInt 7)] [("a", VList [VType TInt; range_0_5])]
                  [] [] "a" (VInt 7) (VList [VType TInt; range_0_5])
                  (VInt 0) (VInt 5) (NInt 7) [] TInt 2
                  eq_refl (Forall_nil _) eq_refl eq_refl eq_refl eq_refl
                  eq_refl (fun H => ltac:(discriminate H)) eq_refl eq_refl
                  eq_refl eq_refl eq_refl)); reflexivity.
Defined.

(** X12: a declaration [type, [v1, v2, ...]] of a scalar parameter, and a
    supplied value of that type that is equal to itself (it is not NaN and
    holds no NaN, so that finding the same object never differs from finding
    an equal one): the value is accepted exactly when it is equal to one of
    the listed values; otherwise [validate_params] fails with ValueError. *)
Theorem validate_params_enumeration
        (parameters references : dict pyval) (pre post : list string)
        (key : string) (v ref : pyval) (allowed : list pyval)
        (ty : pytype) (n : nat) :
  keys references = pre ++ key :: post ->
  gets_past parameters references pre ->
  dict_get parameters key = Some v -> dict_get references key = Some ref ->
  py_getitem ref 0 = Ok (VType ty) -> pytype_eqb ty TList = false ->
  py_len ref = Ok n -> n <> 1 ->
  py_getitem ref 1 = Ok (VList allowed) ->
  issubclass (type_of v) ty = true -> py_eq v v = true ->
  (existsb (py_eq v) allowed = false ->
   validate_params parameters references = Raise (Exn ValueError msg_enum)) /\
  (existsb (py_eq v) allowed = true ->
   check_key parameters references key = Ok Next).
Proof.
  intros Hkeys Hpre Hv Href Hty Hnl Hlen Hn Hc Hsub _.
  assert (Hkey : check_key parameters references key
                 = if existsb (py_eq v) allowed then Ok Next
                   else Raise (Exn ValueError msg_enum)).
  { unfold check_key, dict_getitem. rewrite Hv, Href. cbn [bind].
    rewrite Hty. cbn [bind py_isinstance]. rewrite Hsub. cbn [negb].
    rewrite Hlen. cbn [bind]. apply Nat.eqb_neq in Hn. rewrite Hn.
    cbn [py_eq]. rewrite Hnl, Hc.
    cbn [bind py_isinstance type_of issubclass pytype_eqb orb py_contains].
    destruct (existsb (py_eq v) allowed); reflexivity. }
  split.
  - intros Hout. unfold validate_params. rewrite Hkeys.
    apply check_keys_raise; [assumption|]. now rewrite Hkey, Hout.
  - intros Hin. now rewrite Hkey, Hin.
Qed.

Lemma validate_params_enumeration_witness :
  validate_params [("mode", VStr "fast")]
                  [("mode", VList [VType TStr; VList [VStr "slow"; VStr "exact"]])]
  = Raise (Exn ValueError msg_enum).
Proof.
  apply (proj1 (validate_params_enumeration
                  [("mode", VStr "fast")]
                  [("mode", VList [VType TStr; VList [VStr "slow"; VStr "exact"]])]
                  [] [] "mode" (VStr "fast")
                  (VList [VType TStr; VList [VStr "slow"; VStr "exact"]])
                  [VStr "slow"; VStr "exact"] TStr 2
                  eq_refl (Forall_nil _) eq_refl eq_refl eq_refl eq_refl
                  eq_refl (fun H => ltac:(discriminate H)) eq_refl eq_refl
                  eq_refl)).
  reflexivity.
Defined.

End ParamsMore.

(** ** validate_params: list parameters *)

Section ParamsLists.
Import Params ParamsSpec MetricSpec DeclarationSpec.

Lemma isinstance_real (v : pyval) (ty : pytype) :
  real_type ty = true -> issubclass (type_of v) ty = true ->
  exists x, as_num v = Some x.
Proof. destruct v, ty; simpl; try discriminate; eauto. Qed.

Lemma is_nan_num_iff (v : pyval) (x : num) :
  as_num v = Some x -> num_is_nan x = is_nan v.
Proof. destruct v; simpl; try discriminate; intros [= <-]; reflexivity. Qed.

(** The check of one element under [[list, (ety, (lo, hi))]]. *)
Lemma check_element_tuple (ref e lo hi : pyval) (ety : pytype)
      (r1 r2 : list pyval) :
  py_getitem ref 1 = Ok (VTuple (VType ety :: VTuple (lo :: hi :: r2) :: r1)) ->
  real_type ety = true -> ordered_number lo = true ->
  ordered_number hi = true ->
  check_element ref e
  = if negb (issubclass (type_of e) ety) then Raise (Exn TypeError msg_elem_type)
    else if is_nan e || within_range e lo hi then Ok tt
    else Raise (Exn ValueError msg_elem_range).
Proof.
  intros Hc Hreal Hlo Hhi. unfold check_element. rewrite Hc.
  cbn [bind py_getitem nth_error py_isinstance type_of issubclass pytype_eqb orb].
  destruct (issubclass (type_of e) ety) eqn:Hsub; cbn [negb]; [|reflexivity].
  destruct (isinstance_real e ety Hreal Hsub) as [x Hx].
  rewrite <- (is_nan_num_iff e x Hx).
  apply (check_range_real e lo hi x r2 msg_elem_range Hx Hlo Hhi).
Qed.

Lemma check_elements_all (ref : pyval) (l : list pyval) :
  (forall e, In e l -> check_element ref e = Ok tt) ->
  check_elements ref l = Ok tt.
Proof.
  induction l as [|a l IH]; intros H; simpl; [reflexivity|].
  rewrite (H a (or_introl eq_refl)). simpl. apply IH.
  intros e He. apply H. now right.
Qed.

Lemma check_elements_first_failure (ref : pyval) (good rest : list pyval)
      (bad : pyval) (err : exn) :
  (forall e, In e good -> check_element ref e = Ok tt) ->
  check_element ref bad = Raise err ->
  check_elements ref (good ++ bad :: rest) = Raise err.
Proof.
  induction good as [|a good IH]; intros Hgood Hbad; simpl.
  - now rewrite Hbad.
  - rewrite (Hgood a (or_introl eq_refl)). simpl. apply IH; [|assumption].
    intros e He. apply Hgood. now right.
Qed.

Lemma check_key_list (parameters references : dict pyval) (key : string)
      (ref : pyval) (elems : list pyval) (n : nat) :
  dict_get parameters key = Some (VList elems) ->
  dict_get references key = Some ref ->
  py_getitem ref 0 = Ok (VType TList) -> py_len ref = Ok n -> n <> 1 ->
  check_key parameters references key
  = (check_elements ref elems ;;; Ok Break).
Proof.
  intros Hv Href Hty Hlen Hn. unfold check_key, dict_getitem.
  rewrite Hv, Href. cbn [bind]. rewrite Hty. cbn [bind py_isinstance].
  cbn [type_of issubclass pytype_eqb orb negb]. rewrite Hlen. cbn [bind].
  apply Nat.eqb_neq in Hn. rewrite Hn. reflexivity.
Qed.

(** X13: under a declaration [[list, (type, (min, max))]] whose element
    type is [int], [float] or [bool] and whose bounds are numbers other than
    NaN, every element of the supplied list is checked in order.  An element
    passes when it has the element type and lies in [min, max] or is NaN.
    If all pass the call returns normally; otherwise the first element that
    does not pass decides: TypeError if it has the wrong type, ValueError if
    it is out of range. *)
Theorem validate_params_list_elements
        (parameters references : dict pyval) (pre post : list string)
        (key : string) (ref lo hi : pyval) (ety : pytype)
        (r1 r2 elems : list pyval) (n : nat) :
  keys references = pre ++ key :: post ->
  gets_past parameters references pre ->
  dict_get parameters key = Some (VList elems) ->
  dict_get references key = Some ref ->
  py_getitem ref 0 = Ok (VType TList) -> py_len ref = Ok n -> n <> 1 ->
  py_getitem ref 1 = Ok (VTuple (VType ety :: VTuple (lo :: hi :: r2) :: r1)) ->
  real_type ety = true -> ordered_number lo = true ->
  ordered_number hi = true ->
  ((forall e, In e elems -> element_passes ety lo hi e = true) ->
   validate_params parameters references = Ok tt) /\
  (forall good bad rest,
     elems = good ++ bad :: rest ->
     (forall e, In e good -> element_passes ety lo hi e = true) ->
     element_passes ety lo hi bad = false ->
     validate_params parameters references
     = Raise (Exn (if issubclass (type_of bad) ety then ValueError else TypeError)
                  (if issubclass (type_of bad) ety then msg_elem_range
                   else msg_elem_type))).
Proof.
  intros Hkeys Hpre Hv Href Hty Hlen Hn Hc Hreal Hlo Hhi.
  pose proof (check_key_list _ _ _ _ _ _ Hv Href Hty Hlen Hn) as Hkey.
  assert (Hok : forall e, element_passes ety lo hi e = true ->
                          check_element ref e = Ok tt).
  { intros e Hok. apply andb_true_iff in Hok. destruct Hok as [Hs Hw].
    rewrite (check_element_tuple ref e lo hi ety r1 r2 Hc Hreal Hlo Hhi).
    now rewrite Hs, Hw. }
  unfold validate_params. rewrite Hkeys. split.
  - intros Hall. rewrite check_keys_gets_past by assumption. simpl.
    rewrite Hkey, check_elements_all; [reflexivity|]. auto.
  - intros good bad rest -> Hgood Hbad.
    apply check_keys_raise; [assumption|]. rewrite Hkey.
    rewrite (check_elements_first_failure ref good rest bad
               (Exn (if issubclass (type_of bad) ety then ValueError
                     else TypeError)
                    (if issubclass (type_of bad) ety then msg_elem_range
                     else msg_elem_type))); [reflexivity| |].
    + intros e He. apply Hok. now apply Hgood.
    + rewrite (check_element_tuple ref bad lo hi ety r1 r2 Hc Hreal Hlo Hhi).
      unfold element_passes in Hbad.
      destruct (issubclass (type_of bad) ety); simpl in *; [|reflexivity].
      now rewrite Hbad.
Qed.

Lemma validate_params_list_elements_witness :
  validate_params [("a", VList [VInt 1; VInt 9; VStr "x"])] [("a", decl_int_list)]
  = Raise (Exn ValueError msg_elem_range).
Proof.
  apply (proj2 (validate_params_list_elements
                  [("a", VList [VInt 1; VInt 9; VStr "x"])]
                  [("a", decl_int_list)] [] [] "a" decl_int_list
                  (VInt 0) (VInt 5) TInt [] []
                  [VInt 1; VInt 9; VStr "x"] 2
                  eq_refl (Forall_nil _) eq_refl eq_refl eq_refl eq_refl
                  (fun H => ltac:(discriminate H)) eq_refl eq_refl eq_refl
                  eq_refl)
               [VInt 1] (VInt 9) [VStr "x"] eq_refl).
  - intros e [<-|[]]. reflexivity.
  - reflexivity.
Defined.

(** X14: when the element constraint is written as a list,
    [[list, [type, (min, max)]]], only the element type is enforced: a list
    whose elements all have that type is accepted whatever their values, the
    range is never compared. *)
Theorem validate_params_list_constraint_as_list
        (parameters references : dict pyval) (pre post : list string)
        (key : string) (ref : pyval) (ety : pytype)
        (r1 elems : list pyval) (n : nat) :
  keys references = pre ++ key :: post ->
  gets_past parameters references pre ->
  dict_get parameters key = Some (VList elems) ->
  dict_get references key = Some ref ->
  py_getitem ref 0 = Ok (VType TList) -> py_len ref = Ok n -> n <> 1 ->
  py_getitem ref 1 = Ok (VList (VType ety :: r1)) ->
  (forall e, In e elems -> issubclass (type_of e) ety = true) ->
  validate_params parameters references = Ok tt.
Proof.
  intros Hkeys Hpre Hv Href Hty Hlen Hn Hc Hall.
  unfold validate_params. rewrite Hkeys.
  rewrite check_keys_gets_past by assumption. simpl.
  rewrite (check_key_list _ _ _ _ _ _ Hv Href Hty Hlen Hn).
  rewrite check_elements_all; [reflexivity|].
  intros e He. unfold check_element. rewrite Hc.
  cbn [bind py_getitem nth_error py_isinstance type_of issubclass pytype_eqb orb].
  now rewrite (Hall e He).
Qed.

Lemma validate_params_list_constraint_as_list_witness :
  validate_params [("a", VList [VInt 100; VInt (-3)])]
                  [("a", decl_int_list_as_list)]
  = Ok tt.
Proof.
  apply (validate_params_list_constraint_as_list
           [("a", VList [VInt 100; VInt (-3)])] [("a", decl_int_list_as_list)]
           [] [] "a" decl_int_list_as_list TInt
           [VTuple [VInt 0; VInt 5]] [VInt 100; VInt (-3)] 2);
    try reflexivity; try constructor; try discriminate.
  intros e He. simpl in He. intuition (subst; reflexivity).
Defined.

End ParamsLists.

(** ** validate_metric_params: types, foreign parameters, acceptance *)

Section MetricMore.
Import Metric MetricSpec.

Lemma check_declarations_all (metric_params : dict pyval)
      (ds : list declaration) :
  check_declarations metric_params ds = Ok tt <->
  forall d, In d ds -> check_declaration metric_params d = Ok tt.
Proof.
  induction ds as [|d ds IH]; cbn [check_declarations].
  - split; [intros _ d []|reflexivity].
  - destruct (check_declaration metric_params d) as [[]|e] eqn:Hd; cbn [bind].
    + rewrite IH. split.
      * intros H d' [<-|Hd']; auto.
      * intros H d' Hd'. apply H. now right.
    + split; [discriminate|]. intros H.
      specialize (H d (or_introl eq_refl)). congruence.
Qed.

(** X15: a supplied value that is not an instance of the type declared for
    it under the metric makes [validate_metric_params] fail with TypeError,
    provided the declarations before it pass. *)
Theorem validate_metric_params_type_error
        (metric : string) (pre post : list declaration) (param : string)
        (ty : pytype) (rng : pyval * pyval) (metric_params : dict pyval)
        (v : pyval) :
  dict_get available_metrics metric = Some (pre ++ (param, ty, rng) :: post) ->
  check_declarations metric_params pre = Ok tt ->
  dict_get metric_params param = Some v ->
  issubclass (type_of v) ty = false ->
  validate_metric_params metric metric_params = Raise (Exn TypeError msg_type).
Proof.
  intros Hm Hpre Hv Hsub. unfold validate_metric_params. rewrite Hm.
  assert (Hd : check_declaration metric_params (param, ty, rng)
               = Raise (Exn TypeError msg_type)).
  { unfold check_declaration, dict_mem, dict_getitem. rewrite Hv.
    cbn [bind py_isinstance]. now rewrite Hsub. }
  pose proof (check_declarations_raise metric_params pre post (param, ty, rng)
                (Exn TypeError msg_type) Hpre Hd) as Hraise.
  unfold declaration in *. now rewrite Hraise.
Qed.

Lemma validate_metric_params_type_error_witness :
  validate_metric_params "wasserstein" [("p", VFloat f_1)]
  = Raise (Exn TypeError msg_type).
Proof.
  apply (validate_metric_params_type_error "wasserstein" []
           [("delta", TNumber, (VFloat f_1e_16, VFloat f_1))]
           "p" TInt (VInt 1, VFloat F64.inf) _ (VFloat f_1));
    reflexivity.
Defined.

(** X16: parameters that belong to other metrics are accepted unchecked.  If
    no supplied key is declared under the given metric but each is declared
    under some metric, the call returns normally whatever the values are. *)
Theorem validate_metric_params_foreign_parameters
        (metric : string) (ds : list declaration) (metric_params : dict pyval) :
  dict_get available_metrics metric = Some ds ->
  (forall param ty rng, In (param, ty, rng) ds ->
     dict_get metric_params param = None) ->
  (forall key, In key (keys metric_params) -> declared_anywhere key) ->
  validate_metric_params metric metric_params = Ok tt.
Proof.
  intros Hm Hnone Hkeys. unfold validate_metric_params. rewrite Hm.
  rewrite (proj2 (check_declarations_all metric_params ds)).
  - simpl. now apply check_names_ok.
  - intros [[param ty] rng] Hd. unfold check_declaration, dict_mem.
    now rewrite (Hnone param ty rng Hd).
Qed.

Lemma validate_metric_params_foreign_parameters_witness :
  validate_metric_params "bottleneck" [("p", VStr "two")] = Ok tt.
Proof.
  apply (validate_metric_params_foreign_parameters "bottleneck" _ _ eq_refl).
  - intros param ty rng [[= <- <- <-]|[]]. reflexivity.
  - intros key [<-|[]]. apply available_metric_params_spec. reflexivity.
Defined.

Lemma check_declaration_ok_iff (metric : string) (ds : list declaration)
      (metric_params : dict pyval) (param : string) (ty : pytype)
      (lo hi : pyval) :
  dict_get available_metrics metric = Some ds ->
  In (param, ty, (lo, hi)) ds ->
  (forall v, dict_get metric_params param = Some v -> ordered_number v = true) ->
  check_declaration metric_params (param, ty, (lo, hi)) = Ok tt <->
  (forall v, dict_get metric_params param = Some v ->
     issubclass (type_of v) ty = true /\ within_range v lo hi = true).
Proof.
  intros Hm Hd Hnan.
  destruct (dict_get metric_params param) as [v|] eqn:Hv.
  - destruct (issubclass (type_of v) ty) eqn:Hsub.
    + rewrite (check_declaration_supplied metric_params param ty lo hi v
                 (registry_numeric _ _ _ Hm Hd) Hv Hsub (Hnan _ eq_refl)).
      destruct (within_range v lo hi) eqn:Hw.
      * split; [|reflexivity]. intros _ v' [= <-]. now rewrite Hsub, Hw.
      * split; [discriminate|]. intros H.
        destruct (H v eq_refl) as [_ Hw']. congruence.
    + unfold check_declaration, dict_mem, dict_getitem. rewrite Hv.
      cbn [bind py_isinstance]. rewrite Hsub. cbn [negb].
      split; [discriminate|]. intros H.
      destruct (H v eq_refl) as [Hs _]. congruence.
  - unfold check_declaration, dict_mem. rewrite Hv.
    split; [intros _ v [=]|reflexivity].
Qed.

(** X17: the acceptance criterion.  For a registered metric, when every
    supplied value of a parameter that the metric declares is a [bool], an
    [int] or a [float] other than NaN, [validate_metric_params] returns
    normally if and only if each of these values has the declared type and
    lies in the declared inclusive range, and every supplied key is the name
    of a parameter of some metric. *)
Theorem validate_metric_params_accepts_iff
        (metric : string) (ds : list declaration) (metric_params : dict pyval) :
  dict_get available_metrics metric = Some ds ->
  (forall param ty rng v,
     In (param, ty, rng) ds -> dict_get metric_params param = Some v ->
     ordered_number v = true) ->
  validate_metric_params metric metric_params = Ok tt <->
  (forall param ty lo hi v,
     In (param, ty, (lo, hi)) ds -> dict_get metric_params param = Some v ->
     issubclass (type_of v) ty = true /\ within_range v lo hi = true) /\
  (forall key, In key (keys metric_params) -> declared_anywhere key).
Proof.
  intros Hm Hnan. unfold validate_metric_params. rewrite Hm.
  assert (Hds : check_declarations metric_params ds = Ok tt <->
                forall param ty lo hi v,
                  In (param, ty, (lo, hi)) ds ->
                  dict_get metric_params param = Some v ->
                  issubclass (type_of v) ty = true /\
                  within_range v lo hi = true).
  { rewrite check_declarations_all. split.
    - intros H param ty lo hi v Hd Hv.
      apply (proj1 (check_declaration_ok_iff metric ds metric_params
                      param ty lo hi Hm Hd (fun w => Hnan _ _ _ w Hd)) (H _ Hd) v Hv).
    - intros H [[param ty] [lo hi]] Hd.
      apply (check_declaration_ok_iff metric ds metric_params
               param ty lo hi Hm Hd (fun w => Hnan _ _ _ w Hd)).
      intros v Hv. now apply (H param ty lo hi v). }
  destruct (check_declarations metric_params ds) as [[]|e] eqn:Hc; cbn [bind].
  - destruct (check_names_cases (keys metric_params))
      as [[-> Hall]|[-> (k & Hin & Hk)]].
    + split; [|reflexivity]. intros _. split; [|assumption].
      now apply Hds.
    + split; [discriminate|]. intros [_ H]. exfalso. apply Hk. now apply H.
  - split; [discriminate|]. intros [H _]. apply Hds in H. discriminate.
Qed.

Lemma validate_metric_params_accepts_iff_witness :
  declared_anywhere "delta".
Proof.
  refine (proj2 (proj1 (validate_metric_params_accepts_iff "wasserstein" _
                  [("p", VInt 2); ("delta", VFloat f_half)] eq_refl
                  (fun k ty rng v _ =>
                     ltac:(simpl; destruct (k =? "p")%string;
                           [intros [= <-]; reflexivity|];
                           destruct (k =? "delta")%string;
                           [intros [= <-]; reflexivity|discriminate])))
               eq_refl) "delta" _).
  simpl. auto.
Defined.

End MetricMore.

(** ** Tolerance of a value to itself *)

Section FloatClose.
Import FloatSpec.

Lemma shr_fexp_nonneg (m e : Z) (l : location) :
  (0 <= m)%Z -> (0 <= shr_m (fst (shr_fexp F64.prec F64.emax m e l)))%Z.
Proof.
  intros Hm0. unfold shr_fexp, shr.
  assert (Hm : shr_m (shr_record_of_loc m l) = m)
    by (destruct l as [|[]]; reflexivity).
  destruct (fexp F64.prec F64.emax (Zdigits2 m + e) - e)%Z as [|p|p];
    simpl fst; try (rewrite Hm; assumption).
  rewrite iter_shr_1_m by (rewrite Hm; assumption). rewrite Hm.
  apply Z.div_pos; [assumption|]. apply Z.pow_pos_nonneg; lia.
Qed.

Lemma binary_round_aux_not_negative (m e : Z) (l : location) :
  (0 <= m)%Z -> not_negative (binary_round_aux F64.prec F64.emax false m e l).
Proof.
  intros Hm. unfold binary_round_aux.
  pose proof (shr_fexp_nonneg m e l Hm) as H1.
  destruct (shr_fexp F64.prec F64.emax m e l) as [mrs' e']. simpl fst in H1.
  assert (Hr : (0 <= round_nearest_even (shr_m mrs') (loc_of_shr_record mrs'))%Z).
  { unfold round_nearest_even.
    destruct (loc_of_shr_record mrs') as [|[]]; try lia.
    destruct (Z.even (shr_m mrs')); lia. }
  pose proof (shr_fexp_nonneg _ e' loc_Exact Hr) as H2.
  destruct (shr_fexp F64.prec F64.emax
              (round_nearest_even (shr_m mrs') (loc_of_shr_record mrs'))
              e' loc_Exact) as [mrs'' e'']. simpl fst in H2.
  destruct (shr_m mrs'') as [|q|q]; [exact I| |lia].
  destruct (e'' <=? F64.emax - F64.prec)%Z; reflexivity.
Qed.

Lemma add_not_negative (x y : F64.float) :
  not_negative x -> not_negative y -> not_negative (F64.add x y).
Proof.
  intros Hx Hy. unfold F64.add.
  destruct x as [sx|sx| |sx mx ex], y as [sy|sy| |sy my ey];
    simpl in Hx, Hy; try contradiction; subst;
    try solve [simpl; auto].
  - destruct sx, sy; exact I.
  - unfold SFadd, cond_Zopp. set (ez := Z.min ex ey).
    change (Zpos (fst (shl_align mx ex ez)) + Zpos (fst (shl_align my ey ez)))%Z
      with (Zpos (fst (shl_align mx ex ez) + fst (shl_align my ey ez))).
    unfold binary_normalize, binary_round.
    destruct (shl_align _ _ _) as [mz ez'].
    apply binary_round_aux_not_negative. lia.
Qed.

Lemma leb_zero_not_negative (x : F64.float) :
  not_negative x -> F64.leb F64.zero x = true.
Proof.
  destruct x as [s|s| |s m e]; simpl; try contradiction; intros; subst;
    reflexivity.
Qed.

(** A value other than NaN is within tolerance of itself. *)
Lemma isclose_refl (a : F64.float) : a <> F64.nan -> isclose a a = true.
Proof.
  intros Hnan. unfold isclose.
  destruct a as [s|s| |s m e]; [| |now exfalso|].
  - destruct s; reflexivity.
  - destruct s; reflexivity.
  - cbn [F64.is_finite andb].
    assert (Hsub : F64.sub (S754_finite s m e) (S754_finite s m e)
                   = S754_zero false).
    { unfold F64.sub, SFsub. rewrite Z.sub_diag. reflexivity. }
    rewrite Hsub. change (F64.abs (S754_zero false)) with F64.zero.
    apply leb_zero_not_negative. apply add_not_negative; [reflexivity|].
    unfold F64.mul, SFmul, rtol, F64.abs, SFabs. cbn [xorb].
    apply binary_round_aux_not_negative. lia.
Qed.

Lemma sum_zeros (l : list F64.float) (acc : F64.float) :
  is_zero acc = true -> (forall x, In x l -> is_zero x = true) ->
  is_zero (fold_left F64.add l acc) = true.
Proof.
  revert acc. induction l as [|a l IH]; intros acc Hacc Hl; simpl;
    [assumption|].
  apply IH; [|intros x Hx; apply Hl; now right].
  specialize (Hl a (or_introl eq_refl)).
  destruct acc as [s| | |], a as [s'| | |]; try discriminate.
  destruct s, s'; reflexivity.
Qed.

End FloatClose.

(** ** check_graph: exactly symmetric batches and the kinds of error *)

Section GraphAccept.
Import Graph GraphSpec ArraySpec FloatSpec.

(** X18: a 3-dimensional batch of square matrices that is exactly symmetric,
    has no NaN entry, no negative entry and zeros on every diagonal passes
    all the checks and is returned unchanged, whatever the size of its
    entries. *)
Theorem check_graph_accepts_symmetric (X : ndarray) :
  ndim X = 3 -> axis 1 X = axis 2 X ->
  (forall i j k, in_range3 X i j k ->
     get3 X i j k = get3 X i k j /\ get3 X i j k <> F64.nan) ->
  nonnegative X ->
  (forall d, diagonal_entry X d -> F64.eqb d F64.zero = true) ->
  check_graph X = Ok X.
Proof.
  intros H3 Hsq Hsym Hnn Hdiag. rewrite check_graph_shape_ok by assumption.
  assert (Hsum : F64.eqb (diagonal_sum X) F64.zero = true).
  { apply eqb_zero_is_zero. unfold diagonal_sum, Np.sum.
    apply sum_zeros; [reflexivity|]. intros d Hd.
    apply eqb_zero_is_zero, Hdiag. now apply In_diagonal. }
  assert (Hclose : allclose_transpose X = true).
  { unfold allclose_transpose. apply forallb_forall. intros [[i j] k] Ht.
    apply In_indices3 in Ht. destruct (Hsym i j k Ht) as [<- Hnan].
    now apply isclose_refl. }
  rewrite Hsum, Hclose. simpl. apply n_negative_zero in Hnn. now rewrite Hnn.
Qed.

Lemma check_graph_accepts_symmetric_witness :
  check_graph edge_batch = Ok edge_batch.
Proof.
  apply check_graph_accepts_symmetric; try reflexivity.
  - intros i j k (Hi & Hj & Hk). cbv in Hi, Hj, Hk.
    destruct i as [|i]; [|lia].
    destruct j as [|[|j]]; [| |lia];
      (destruct k as [|[|k]]; [| |lia]); split; solve [reflexivity|discriminate].
  - intros x Hx. cbv in Hx. intuition (subst; reflexivity).
  - intros d (i & j & Hi & Hj & ->). cbv in Hi, Hj.
    destruct i as [|i]; [|lia]. destruct j as [|[|j]]; [reflexivity..|lia].
Defined.

(** X19: [check_graph] fails with TypeError exactly when the batch is
    3-dimensional and its matrices are not square; every other failure is a
    ValueError. *)
Theorem check_graph_error_kinds (X : ndarray) :
  (raises TypeError (check_graph X) <-> ndim X = 3 /\ axis 1 X <> axis 2 X) /\
  (check_graph X = Ok X \/ raises ValueError (check_graph X) \/
   raises TypeError (check_graph X)).
Proof.
  unfold check_graph, raises.
  destruct (ndim X =? 3) eqn:E3; simpl.
  - apply Nat.eqb_eq in E3.
    destruct (axis 1 X =? axis 2 X) eqn:Esq; simpl.
    + apply Nat.eqb_eq in Esq.
      destruct (negb (F64.eqb (diagonal_sum X) F64.zero));
        [|destruct (negb (allclose_transpose X));
          [|destruct (0 <? n_negative X)]];
        (split; [split; [intros (msg & [=])|intros [_ H]; contradiction]|]);
        eauto.
    + apply Nat.eqb_neq in Esq. split; [|eauto].
      split; [auto|]. intros _. eauto.
  - apply Nat.eqb_neq in E3. split; [|eauto].
    split; [intros (msg & [=])|intros [H _]; contradiction].
Qed.

Lemma check_graph_error_kinds_witness :
  raises TypeError (check_graph rectangular_batch).
Proof.
  apply (proj2 (proj1 (check_graph_error_kinds rectangular_batch))).
  split; [reflexivity|discriminate].
Defined.

End GraphAccept.

(** ** validate_metric_params: the kinds of error *)

Section MetricKinds.
Import Metric MetricSpec.

(** A value that is not a real number cannot be compared with one. *)
Lemma py_lt_not_real (v w : pyval) (y : num) :
  as_num v = None -> as_num w = Some y ->
  py_lt v w = Raise (Exn TypeError msg_unorderable).
Proof. destruct v, w; simpl; try discriminate; reflexivity. Qed.

Lemma check_declaration_kinds (metric_params : dict pyval) (d : declaration) :
  numeric_declaration d = true ->
  check_declaration metric_params d = Ok tt \/
  raises ValueError (check_declaration metric_params d) \/
  raises TypeError (check_declaration metric_params d).
Proof.
  destruct d as [[param ty] [lo hi]]. intros Hd. simpl in Hd.
  apply andb_true_iff in Hd. destruct Hd as [Hd Hhi].
  apply andb_true_iff in Hd. destruct Hd as [Hnum Hlo].
  destruct (ordered_number_spec lo Hlo) as (a & Ha & _).
  destruct (ordered_number_spec hi Hhi) as (b & Hb & _).
  unfold check_declaration, dict_mem, dict_getitem, py_gt, raises.
  destruct (dict_get metric_params param) as [v|]; [|auto].
  cbn [bind py_isinstance fst snd].
  destruct (issubclass (type_of v) ty) eqn:Hsub; cbn [negb]; [|eauto].
  destruct (as_num v) as [x|] eqn:Hx.
  - rewrite (py_lt_num v lo x a Hx Ha), (py_lt_num hi v b x Hb Hx).
    cbn [bind]. destruct (num_ltb x a); [eauto|]. destruct (num_ltb b x); eauto.
  - rewrite (py_lt_not_real v lo a Hx Ha). cbn [bind]. eauto.
Qed.

Lemma check_declarations_kinds (metric_params : dict pyval)
      (ds : list declaration) :
  (forall d, In d ds -> numeric_declaration d = true) ->
  check_declarations metric_params ds = Ok tt \/
  raises ValueError (check_declarations metric_params ds) \/
  raises TypeError (check_declarations metric_params ds).
Proof.
  induction ds as [|d ds IH]; intros H; cbn [check_declarations]; [auto|].
  destruct (check_declaration_kinds metric_params d (H d (or_introl eq_refl)))
    as [->|[(msg & ->)|(msg & ->)]]; cbn [bind].
  - apply IH. intros d' Hd'. apply H. now right.
  - right. left. now exists msg.
  - right. right. now exists msg.
Qed.

(** X20: whatever the metric name is, on a dictionary whose values are of
    the built-in types [bool], [int], [float], [complex], [str], [list],
    [tuple], [type] and [NoneType], [validate_metric_params] returns normally
    or fails with ValueError or TypeError; it never fails with KeyError or
    any other exception. *)
Theorem validate_metric_params_error_kinds
        (metric : string) (metric_params : dict pyval) :
  validate_metric_params metric metric_params = Ok tt \/
  raises ValueError (validate_metric_params metric metric_params) \/
  raises TypeError (validate_metric_params metric metric_params).
Proof.
  unfold validate_metric_params.
  destruct (dict_get available_metrics metric) as [ds|] eqn:Hm.
  - destruct (check_declarations_kinds metric_params ds)
      as [->|[(msg & ->)|(msg & ->)]]; cbn [bind].
    + intros d Hd. now apply (registry_numeric metric ds d).
    + destruct (check_names_cases (keys metric_params)) as [[-> _]|[-> _]];
        [auto|]. right. left. now exists msg_param.
    + right. left. now exists msg.
    + right. right. now exists msg.
  - right. left. now exists msg_metric.
Qed.

End MetricKinds.
